(** * Flash access layer of the bootloader (Src/flash.c)

    A shallow embedding of [FLASH_Init], [flash_erase], [flash_write] and
    [flash_jump_to_app].  The vendor HAL and the processor core are an
    interface ([HAL]) over an abstract hardware state; the driver code is
    written in a small monad that threads that state and records every call
    into the HAL as an event.  The application that [flash_jump_to_app]
    calls is a parameter too: it may return to the driver or keep control
    for good. *)

From Stdlib Require Import ZArith List Bool Lia.
From ExtLib Require Import Structures.Monad.
Import ListNotations.
Import MonadNotation.
Local Open Scope Z_scope.
Local Open Scope monad_scope.

(** ** Machine integers *)

(** [uint32_t] arithmetic: results are reduced modulo 2^32. *)
Definition wrap32 (z : Z) : Z := z mod 2 ^ 32.

Definition is_uint32 (z : Z) : Prop := 0 <= z < 2 ^ 32.

(** ** Constants defined at the top of flash.c *)

Definition FLASH_START_ADRESS : Z := 0x08000000.
Definition FLASH_PAGE_NBPERBANK : Z := 256.
Definition FLASH_BANK_NUMBER : Z := 2.
Definition USER_FLASH_END_ADDRESS : Z := 0x08080000.

(** ** Vendor HAL types *)

Inductive HAL_StatusTypeDef : Type :=
| HAL_OK
| HAL_ERROR
| HAL_BUSY
| HAL_TIMEOUT.

Definition HAL_Status_eqb (a b : HAL_StatusTypeDef) : bool :=
  match a, b with
  | HAL_OK, HAL_OK | HAL_ERROR, HAL_ERROR
  | HAL_BUSY, HAL_BUSY | HAL_TIMEOUT, HAL_TIMEOUT => true
  | _, _ => false
  end.

Inductive FLASH_Bank : Type :=
| FLASH_BANK_1
| FLASH_BANK_2.

Inductive FLASH_TypeErase : Type :=
| FLASH_TYPEERASE_PAGES
| FLASH_TYPEERASE_MASSERASE.

Inductive FLASH_TypeProgram : Type :=
| FLASH_TYPEPROGRAM_DOUBLEWORD
| FLASH_TYPEPROGRAM_FAST.

(** The erase descriptor handed to [HAL_FLASHEx_Erase]. *)
Record FLASH_EraseInitTypeDef : Type := mkEraseInit {
  TypeErase : FLASH_TypeErase;
  Banks : FLASH_Bank;
  Page : Z;
  NbPages : Z
}.

(** ** Values that come from headers outside flash.c

    [flash.h] (the status codes and the application base address) and the
    device header of the HAL (flash size, page size, flag masks) are not
    part of the translated file, so their values are parameters. *)
Record flash_h : Type := mkFlashH {
  FLASH_OK : Z;
  FLASH_ERROR : Z;
  FLASH_ERROR_WRITE : Z;
  FLASH_ERROR_READBACK : Z;
  FLASH_APP_START_ADDRESS : Z;
  FLASH_SIZE : Z;
  FLASH_PAGE_SIZE : Z;
  FLASH_FLAG_EOP : Z;
  FLASH_FLAG_PGSERR : Z;
  FLASH_FLAG_WRPERR : Z;
  FLASH_FLAG_OPTVERR : Z
}.

(** ** The HAL as an interface over an abstract hardware state *)

Record HAL (HW : Type) : Type := mkHAL {
  (* HAL_FLASH_Unlock() *)
  hal_unlock : HW -> HAL_StatusTypeDef * HW;
  (* HAL_FLASH_Lock() *)
  hal_lock : HW -> HAL_StatusTypeDef * HW;
  (* __HAL_FLASH_CLEAR_FLAG(mask): a macro, no result *)
  hal_clear_flag : Z -> HW -> HW;
  (* HAL_FLASHEx_Erase(&init, &PageError): status and PageError *)
  hal_erase : FLASH_EraseInitTypeDef -> HW -> HAL_StatusTypeDef * Z * HW;
  (* HAL_FLASH_Program(type, address, data) *)
  hal_program : FLASH_TypeProgram -> Z -> Z -> HW -> HAL_StatusTypeDef * HW;
  (* HAL_DeInit() *)
  hal_deinit : HW -> HAL_StatusTypeDef * HW;
  (* __set_MSP(value) *)
  hal_set_msp : Z -> HW -> HW;
  (* *(uint64_t * )address and *(volatile uint32_t * )address *)
  mem_read64 : HW -> Z -> Z;
  mem_read32 : HW -> Z -> Z;
  (* the LOCK bit of the flash control register *)
  flash_locked : HW -> bool
}.

Arguments hal_unlock {HW}.
Arguments hal_lock {HW}.
Arguments hal_clear_flag {HW}.
Arguments hal_erase {HW}.
Arguments hal_program {HW}.
Arguments hal_deinit {HW}.
Arguments hal_set_msp {HW}.
Arguments mem_read64 {HW}.
Arguments mem_read32 {HW}.
Arguments flash_locked {HW}.

(** ** Events: every interaction of the driver with the HAL, in order,
    together with what the HAL answered. *)

Inductive event : Type :=
| EvUnlock (r : HAL_StatusTypeDef)
| EvLock (r : HAL_StatusTypeDef)
| EvClearFlag (mask : Z)
| EvErase (init : FLASH_EraseInitTypeDef) (r : HAL_StatusTypeDef)
| EvProgram (ty : FLASH_TypeProgram) (address data : Z) (r : HAL_StatusTypeDef)
| EvRead64 (address value : Z)
| EvRead32 (address value : Z)
| EvDeInit (r : HAL_StatusTypeDef)
| EvSetMSP (value : Z)
| EvBranch (entry : Z).

(** ** The driver monad

    A computation takes the hardware state and yields an outcome, the new
    hardware state and the events it produced.  [Jumped] is the outcome of
    a computation that called code which keeps control and does not come
    back: nothing sequenced after it runs. *)

Inductive outcome (A : Type) : Type :=
| Ret (a : A)
| Jumped.

Arguments Ret {A}.
Arguments Jumped {A}.

Definition M (HW A : Type) : Type := HW -> outcome A * HW * list event.

Definition M_ret {HW A : Type} (a : A) : M HW A :=
  fun h => (Ret a, h, []).

Definition M_bind {HW A B : Type} (c : M HW A) (k : A -> M HW B) : M HW B :=
  fun h =>
    match c h with
    | (Ret a, h1, t1) =>
        match k a h1 with
        | (o, h2, t2) => (o, h2, t1 ++ t2)
        end
    | (Jumped, h1, t1) => (Jumped, h1, t1)
    end.

#[export] Instance Monad_M (HW : Type) : Monad (M HW) :=
  {| ret := @M_ret HW; bind := @M_bind HW |}.

(** Projections of a finished run. *)
Definition result_of {HW A : Type} (r : outcome A * HW * list event) : outcome A :=
  fst (fst r).
Definition hw_of {HW A : Type} (r : outcome A * HW * list event) : HW :=
  snd (fst r).
Definition trace_of {HW A : Type} (r : outcome A * HW * list event) : list event :=
  snd r.

Section Driver.

Context {HW : Type}.
Variable hal : HAL HW.
Variable hdr : flash_h.

(** The application image: what the code at an entry address does when it
    is called on a hardware state.  [Some h'] is an application that
    returns to its caller, leaving the hardware in [h']; [None] is one that
    keeps control (the usual reset handler). *)
Variable application : Z -> HW -> option HW.

(** *** HAL calls as monadic primitives *)

Definition HAL_FLASH_Unlock : M HW HAL_StatusTypeDef :=
  fun h => let (r, h') := hal_unlock hal h in (Ret r, h', [EvUnlock r]).

Definition HAL_FLASH_Lock : M HW HAL_StatusTypeDef :=
  fun h => let (r, h') := hal_lock hal h in (Ret r, h', [EvLock r]).

Definition HAL_FLASH_CLEAR_FLAG (mask : Z) : M HW unit :=
  fun h => (Ret tt, hal_clear_flag hal mask h, [EvClearFlag mask]).

Definition HAL_FLASHEx_Erase (init : FLASH_EraseInitTypeDef)
  : M HW (HAL_StatusTypeDef * Z) :=
  fun h =>
    match hal_erase hal init h with
    | (r, page_error, h') => (Ret (r, page_error), h', [EvErase init r])
    end.

Definition HAL_FLASH_Program (ty : FLASH_TypeProgram) (address data : Z)
  : M HW HAL_StatusTypeDef :=
  fun h =>
    let (r, h') := hal_program hal ty address data h in
    (Ret r, h', [EvProgram ty address data r]).

Definition read_uint64 (address : Z) : M HW Z :=
  fun h => let v := mem_read64 hal h address in (Ret v, h, [EvRead64 address v]).





(** *** FLASH_Init *)

Definition FLASH_Init : M HW unit :=
  _ <- HAL_FLASH_Unlock ;;
  HAL_FLASH_CLEAR_FLAG
    (Z.lor (Z.lor (Z.lor (FLASH_FLAG_EOP hdr) (FLASH_FLAG_PGSERR hdr))
                  (FLASH_FLAG_WRPERR hdr))
           (FLASH_FLAG_OPTVERR hdr)) ;;
  _ <- HAL_FLASH_Lock ;;
  ret tt.

(** *** flash_erase *)

(** Lines 52-53: the number of pages from [address] to the end of flash. *)
Definition NbrOfPages_from (address : Z) : Z :=
  let NbrOfPages := wrap32 (FLASH_START_ADRESS + FLASH_SIZE hdr) in
  wrap32 (NbrOfPages - address) / FLASH_PAGE_SIZE hdr.

Definition flash_erase (address : Z) : M HW Z :=
  let hal_status := HAL_OK in
  _ <- HAL_FLASH_Unlock ;;
  let NbrOfPages := NbrOfPages_from address in
  let status := FLASH_ERROR hdr in
  '(hal_status, NbrOfPages) <-
    (if NbrOfPages >? FLASH_PAGE_NBPERBANK then
       let nb := NbrOfPages mod FLASH_PAGE_NBPERBANK in
       let pEraseInit :=
         {| Banks := FLASH_BANK_1;
            NbPages := nb;
            Page := wrap32 (FLASH_PAGE_NBPERBANK - nb);
            TypeErase := FLASH_TYPEERASE_PAGES |} in
       r <- HAL_FLASHEx_Erase pEraseInit ;;
       ret (fst r, FLASH_PAGE_NBPERBANK)
     else ret (hal_status, NbrOfPages)) ;;
  hal_status <-
    (if HAL_Status_eqb hal_status HAL_OK then
       let pEraseInit :=
         {| Banks := FLASH_BANK_2;
            NbPages := NbrOfPages;
            Page := wrap32 (FLASH_PAGE_NBPERBANK - NbrOfPages);
            TypeErase := FLASH_TYPEERASE_PAGES |} in
       r <- HAL_FLASHEx_Erase pEraseInit ;;
       ret (fst r)
     else ret hal_status) ;;
  let status := if HAL_Status_eqb HAL_OK hal_status then FLASH_OK hdr else status in
  _ <- HAL_FLASH_Lock ;;
  ret status.

(** *** flash_write *)

(** [*(uint64_t * )(data + 2*i)]: the two consecutive 32-bit words at
    index [2*i] (low half) and [2*i + 1] (high half) of the source
    buffer; [2*i] is computed in [uint32_t].  The buffer is a list of
    words; a read past its end (which the caller must exclude by passing
    at least [length] words) yields 0 here. *)
Definition read_dword (data : list Z) (i : Z) : Z :=
  let k := wrap32 (2 * i) in
  Z.lor (nth (Z.to_nat k) data 0)
        (Z.shiftl (nth (Z.to_nat (k + 1)) data 0) 32).

(** The loop variables when the [for] loop of line 103 is left. *)
Record loop_exit : Type := mkLoopExit {
  exit_status : Z;
  exit_i : Z;
  exit_address : Z
}.

(** The [for] loop of lines 103-125.  [fuel] bounds the number of
    iterations; [flash_write] passes [length / 2], which the counter [i]
    can never exceed (see [flash_write_fuel_suffices]). *)
Fixpoint flash_write_loop (fuel : nat) (data : list Z) (length : Z)
         (i address status : Z) : M HW loop_exit :=
  if (i <? length / 2) && (address <=? USER_FLASH_END_ADDRESS - 8) then
    match fuel with
    | O => ret (mkLoopExit status i address)
    | S fuel' =>
        r <- HAL_FLASH_Program FLASH_TYPEPROGRAM_DOUBLEWORD address
                               (read_dword data i) ;;
        if HAL_Status_eqb r HAL_OK then
          v <- read_uint64 address ;;
          if negb (v =? read_dword data i) then
            (* status |= FLASH_ERROR_READBACK; break; *)
            ret (mkLoopExit (Z.lor status (FLASH_ERROR_READBACK hdr)) i address)
          else
            (* address += 8; i++ *)
            flash_write_loop fuel' data length
                             (wrap32 (i + 1)) (wrap32 (address + 8)) status
        else
          (* status |= FLASH_ERROR_WRITE; break; *)
          ret (mkLoopExit (Z.lor status (FLASH_ERROR_WRITE hdr)) i address)
    end
  else ret (mkLoopExit status i address).

Definition flash_write (address : Z) (data : list Z) (length : Z) : M HW Z :=
  let status := FLASH_OK hdr in
  _ <- HAL_FLASH_Unlock ;;
  e <- flash_write_loop (Z.to_nat (length / 2)) data length 0 address status ;;
  _ <- HAL_FLASH_Lock ;;
  ret (exit_status e).

(** *** flash_jump_to_app *)


End Driver.

(** The loop variables with which [flash_write] leaves its [for] loop. *)
Definition flash_write_exit {HW : Type} (hal : HAL HW) (hdr : flash_h)
           (address : Z) (data : list Z) (length : Z) (h : HW)
  : outcome loop_exit :=
  result_of (flash_write_loop hal hdr (Z.to_nat (length / 2)) data length
                              0 address (FLASH_OK hdr)
                              (snd (hal_unlock hal h))).

(** A run that comes back to its caller with the flash controller locked,
    the lock request being the last thing it did. *)
Definition returns_locked {HW A : Type} (hal : HAL HW)
           (run : outcome A * HW * list event) : Prop :=
  (exists a, result_of run = Ret a) /\
  flash_locked hal (hw_of run) = true /\
  exists pre r, trace_of run = pre ++ [EvLock r].

(** ** Reading traces *)

(** The erase requests of a trace, with the HAL's answers, in order. *)
Fixpoint erase_calls (t : list event)
  : list (FLASH_EraseInitTypeDef * HAL_StatusTypeDef) :=
  match t with
  | [] => []
  | EvErase init r :: t' => (init, r) :: erase_calls t'
  | _ :: t' => erase_calls t'
  end.

(** The program requests of a trace: destination, data and answer. *)
Fixpoint program_calls (t : list event) : list (Z * Z * HAL_StatusTypeDef) :=
  match t with
  | [] => []
  | EvProgram _ address data r :: t' => (address, data, r) :: program_calls t'
  | _ :: t' => program_calls t'
  end.

Definition destination (c : Z * Z * HAL_StatusTypeDef) : Z := fst (fst c).

(** The double-word slots [address], [address + 8], ... : [n] of them,
    computed without reduction modulo 2^32. *)
Fixpoint slots (address : Z) (n : nat) : list Z :=
  match n with
  | O => []
  | S n' => address :: slots (address + 8) n'
  end.

(** The erase requests that flash_erase builds (lines 59-62 and 70-73). *)
Definition bank1_request (nb : Z) : FLASH_EraseInitTypeDef :=
  {| TypeErase := FLASH_TYPEERASE_PAGES;
     Banks := FLASH_BANK_1;
     Page := FLASH_PAGE_NBPERBANK - nb;
     NbPages := nb |}.

Definition bank2_request (n : Z) : FLASH_EraseInitTypeDef :=
  {| TypeErase := FLASH_TYPEERASE_PAGES;
     Banks := FLASH_BANK_2;
     Page := FLASH_PAGE_NBPERBANK - n;
     NbPages := n |}.

(** The address one past the last byte of flash, as line 52 computes it
    before the reduction to 32 bits. *)
Definition flash_end (hdr : flash_h) : Z :=
  FLASH_START_ADRESS + FLASH_SIZE hdr.

(** The requests that the loop of [flash_write] makes when nothing stops
    it: the source double-words from index [i] on, at consecutive slots
    from [address] on. *)
Fixpoint write_plan (data : list Z) (i address : Z) (n : nat) : list (Z * Z) :=
  match n with
  | O => []
  | S n' => (address, read_dword data i) :: write_plan data (i + 1) (address + 8) n'
  end.

(** A flash controller that accepts every program request and then reads
    back what was programmed. *)
Definition programs_and_verifies {HW : Type} (hal : HAL HW) : Prop :=
  forall ty a d h,
    fst (hal_program hal ty a d h) = HAL_OK /\
    mem_read64 hal (snd (hal_program hal ty a d h)) a = d.

(** The number of pages that a list of erase requests asks for. *)
Definition pages_requested
           (calls : list (FLASH_EraseInitTypeDef * HAL_StatusTypeDef)) : Z :=
  fold_right (fun c acc => NbPages (fst c) + acc) 0 calls.

(** ** A test double of the HAL

    A simulated board: the lock bit, the programmed double-words, the main
    stack pointer, and a fault plan that says which requests the simulated
    controller rejects and which double-word slots store a corrupted value. *)
Module TestDouble.

Record faults : Type := mkFaults {
  erase_fault : FLASH_Bank -> bool;
  program_fault : Z -> bool;
  readback_fault : Z -> bool
}.

Record board : Type := mkBoard {
  lock_bit : bool;
  cells : list (Z * Z);
  msp : Z;
  peripherals_up : bool
}.

Definition no_faults : faults :=
  {| erase_fault := fun _ => false;
     program_fault := fun _ => false;
     readback_fault := fun _ => false |}.

(** The controller rejects every erase request on bank 1. *)
Definition bank1_broken : faults :=
  {| erase_fault := fun b => match b with FLASH_BANK_1 => true | _ => false end;
     program_fault := fun _ => false;
     readback_fault := fun _ => false |}.

(** The controller rejects the program request at slot [a]. *)
Definition program_rejected_at (a : Z) : faults :=
  {| erase_fault := fun _ => false;
     program_fault := fun x => x =? a;
     readback_fault := fun _ => false |}.

(** The slot at [a] stores a value that differs from the one programmed. *)
Definition corrupted_at (a : Z) : faults :=
  {| erase_fault := fun _ => false;
     program_fault := fun _ => false;
     readback_fault := fun x => x =? a |}.

Definition erased_dword : Z := 0xFFFFFFFFFFFFFFFF.

Fixpoint lookup (a : Z) (cs : list (Z * Z)) : Z :=
  match cs with
  | [] => erased_dword
  | (a', v) :: cs' => if a =? a' then v else lookup a cs'
  end.

Definition page_size : Z := 0x800.

Definition bank_base (b : FLASH_Bank) : Z :=
  match b with
  | FLASH_BANK_1 => 0x08000000
  | FLASH_BANK_2 => 0x08000000 + 256 * page_size
  end.

Definition in_erased_range (init : FLASH_EraseInitTypeDef) (a : Z) : bool :=
  let lo := bank_base (Banks init) + Page init * page_size in
  (lo <=? a) && (a <? lo + NbPages init * page_size).

Definition set_lock (b : bool) (h : board) : board :=
  {| lock_bit := b; cells := cells h; msp := msp h;
     peripherals_up := peripherals_up h |}.

Definition set_cells (cs : list (Z * Z)) (h : board) : board :=
  {| lock_bit := lock_bit h; cells := cs; msp := msp h;
     peripherals_up := peripherals_up h |}.

Definition read64 (h : board) (a : Z) : Z := lookup a (cells h).

Definition read32 (h : board) (a : Z) : Z :=
  if a mod 8 =? 0 then read64 h a mod 2 ^ 32
  else Z.shiftr (read64 h (a - 4)) 32.

Definition hal (f : faults) : HAL board :=
  {| hal_unlock := fun h => (HAL_OK, set_lock false h);
     hal_lock := fun h => (HAL_OK, set_lock true h);
     hal_clear_flag := fun _ h => h;
     hal_erase := fun init h =>
       if erase_fault f (Banks init) then (HAL_ERROR, Page init, h)
       else (HAL_OK, 0xFFFFFFFF,
             set_cells
               (filter (fun c => negb (in_erased_range init (fst c))) (cells h))
               h);
     hal_program := fun _ a d h =>
       if program_fault f a then (HAL_ERROR, h)
       else (HAL_OK,
             set_cells ((a, if readback_fault f a then Z.lxor d 1 else d) :: cells h) h);
     hal_deinit := fun h =>
       (HAL_OK, {| lock_bit := lock_bit h; cells := cells h; msp := msp h;
                   peripherals_up := false |});
     hal_set_msp := fun v h =>
       {| lock_bit := lock_bit h; cells := cells h; msp := v;
          peripherals_up := peripherals_up h |};
     mem_read64 := read64;
     mem_read32 := read32;
     flash_locked := lock_bit |}.

(** A header instance for a part with 1 MiB of flash in 2 KiB pages. *)
Definition header : flash_h :=
  {| FLASH_OK := 0x00;
     FLASH_ERROR := 0xFF;
     FLASH_ERROR_WRITE := 0x02;
     FLASH_ERROR_READBACK := 0x04;
     FLASH_APP_START_ADDRESS := 0x08008000;
     FLASH_SIZE := 0x100000;
     FLASH_PAGE_SIZE := page_size;
     FLASH_FLAG_EOP := 0x0001;
     FLASH_FLAG_PGSERR := 0x0080;
     FLASH_FLAG_WRPERR := 0x0010;
     FLASH_FLAG_OPTVERR := 0x8000 |}.

(** A board after reset: locked, flash erased. *)
Definition fresh : board :=
  {| lock_bit := true; cells := []; msp := 0x20018000; peripherals_up := true |}.





End TestDouble.

(** * Properties *)

(** ** Generic facts *)

Lemma HAL_Status_eqb_eq (a b : HAL_StatusTypeDef) :
  HAL_Status_eqb a b = true <-> a = b.
Proof. destruct a, b; simpl; split; congruence. Qed.

Lemma HAL_Status_eqb_neq (a b : HAL_StatusTypeDef) :
  HAL_Status_eqb a b = false <-> a <> b.
Proof. destruct a, b; simpl; split; congruence. Qed.

Lemma HAL_Status_eqb_sym (a b : HAL_StatusTypeDef) :
  HAL_Status_eqb a b = HAL_Status_eqb b a.
Proof. destruct a, b; reflexivity. Qed.

Lemma wrap32_small (z : Z) : is_uint32 z -> wrap32 z = z.
Proof. unfold is_uint32, wrap32. intros H. apply Z.mod_small. exact H. Qed.

Lemma wrap32_range (z : Z) : is_uint32 (wrap32 z).
Proof. unfold is_uint32, wrap32. apply Z.mod_pos_bound. reflexivity. Qed.

(** Unfolding the monad of the driver. *)
Tactic Notation "run_driver" :=
  unfold bind, ret, Monad_M, M_bind, M_ret;
  cbn beta iota delta [fst snd app result_of hw_of trace_of].

Tactic Notation "run_driver" "in" hyp(H) :=
  unfold bind, ret, Monad_M, M_bind, M_ret in H;
  cbn beta iota delta [fst snd app result_of hw_of trace_of] in H.

Section EraseFacts.

Context {HW : Type}.
Variable hal : HAL HW.
Variable hdr : flash_h.

Lemma NbrOfPages_from_nonneg (address : Z) :
  0 < FLASH_PAGE_SIZE hdr -> 0 <= NbrOfPages_from hdr address.
Proof.
  intros Hps. unfold NbrOfPages_from.
  apply Z.div_pos; [ apply wrap32_range | exact Hps ].
Qed.

(** The run of [flash_erase] when the page count fits in one bank. *)
Lemma flash_erase_one_bank (address : Z) (h : HW) :
  NbrOfPages_from hdr address <= FLASH_PAGE_NBPERBANK ->
  let n := NbrOfPages_from hdr address in
  let e2 := {| TypeErase := FLASH_TYPEERASE_PAGES; Banks := FLASH_BANK_2;
               Page := wrap32 (FLASH_PAGE_NBPERBANK - n); NbPages := n |} in
  let u := hal_unlock hal h in
  let x := hal_erase hal e2 (snd u) in
  let l := hal_lock hal (snd x) in
  flash_erase hal hdr address h =
    (Ret (if HAL_Status_eqb HAL_OK (fst (fst x))
          then FLASH_OK hdr else FLASH_ERROR hdr),
     snd l,
     [EvUnlock (fst u); EvErase e2 (fst (fst x)); EvLock (fst l)]).
Proof.
  intros Hle n e2 u x l. subst n e2 u x l.
  unfold flash_erase, HAL_FLASH_Unlock, HAL_FLASH_Lock, HAL_FLASHEx_Erase.
  run_driver.
  destruct (hal_unlock hal h) as [r0 h1]. run_driver.
  destruct (Z.gtb_spec (NbrOfPages_from hdr address) FLASH_PAGE_NBPERBANK)
    as [Hgt | _]; [ lia | ].
  run_driver. cbn [HAL_Status_eqb].
  destruct (hal_erase hal _ h1) as [[r1 pe] h2]. run_driver.
  destruct (hal_lock hal h2) as [r2 h3]. run_driver.
  reflexivity.
Qed.

(** The run of [flash_erase] when the page count exceeds one bank. *)
Lemma flash_erase_two_banks (address : Z) (h : HW) :
  NbrOfPages_from hdr address > FLASH_PAGE_NBPERBANK ->
  let nb := NbrOfPages_from hdr address mod FLASH_PAGE_NBPERBANK in
  let e1 := {| TypeErase := FLASH_TYPEERASE_PAGES; Banks := FLASH_BANK_1;
               Page := wrap32 (FLASH_PAGE_NBPERBANK - nb); NbPages := nb |} in
  let e2 := {| TypeErase := FLASH_TYPEERASE_PAGES; Banks := FLASH_BANK_2;
               Page := wrap32 (FLASH_PAGE_NBPERBANK - FLASH_PAGE_NBPERBANK);
               NbPages := FLASH_PAGE_NBPERBANK |} in
  let u := hal_unlock hal h in
  let x1 := hal_erase hal e1 (snd u) in
  let x2 := hal_erase hal e2 (snd x1) in
  flash_erase hal hdr address h =
    if HAL_Status_eqb (fst (fst x1)) HAL_OK then
      let l := hal_lock hal (snd x2) in
      (Ret (if HAL_Status_eqb HAL_OK (fst (fst x2))
            then FLASH_OK hdr else FLASH_ERROR hdr),
       snd l,
       [EvUnlock (fst u); EvErase e1 (fst (fst x1));
        EvErase e2 (fst (fst x2)); EvLock (fst l)])
    else
      let l := hal_lock hal (snd x1) in
      (Ret (FLASH_ERROR hdr), snd l,
       [EvUnlock (fst u); EvErase e1 (fst (fst x1)); EvLock (fst l)]).
Proof.
  intros Hgt nb e1 e2 u x1 x2. subst nb e1 e2 u x1 x2.
  unfold flash_erase, HAL_FLASH_Unlock, HAL_FLASH_Lock, HAL_FLASHEx_Erase.
  run_driver.
  destruct (hal_unlock hal h) as [r0 h1]. run_driver.
  destruct (Z.gtb_spec (NbrOfPages_from hdr address) FLASH_PAGE_NBPERBANK)
    as [_ | Hle]; [ | lia ].
  run_driver.
  destruct (hal_erase hal _ h1) as [[r1 pe1] h2]. run_driver.
  destruct (HAL_Status_eqb r1 HAL_OK) eqn:E1; run_driver.
  - destruct (hal_erase hal _ h2) as [[r2 pe2] h3]. run_driver.
    destruct (hal_lock hal h3) as [r3 h4]. run_driver. reflexivity.
  - rewrite HAL_Status_eqb_sym, E1.
    destruct (hal_lock hal h2) as [r3 h4]. run_driver. reflexivity.
Qed.

End EraseFacts.

Section WriteLoopFacts.

Context {HW : Type}.
Variable hal : HAL HW.
Variable hdr : flash_h.
Variable data : list Z.
Variable length : Z.

(** One iteration of the loop, with the monad unfolded. *)
Lemma flash_write_loop_unfold (fuel : nat) (i address status : Z) (h : HW) :
  let d := read_dword data i in
  let p := hal_program hal FLASH_TYPEPROGRAM_DOUBLEWORD address d h in
  let v := mem_read64 hal (snd p) address in
  flash_write_loop hal hdr fuel data length i address status h =
    if (i <? length / 2) && (address <=? USER_FLASH_END_ADDRESS - 8) then
      match fuel with
      | O => (Ret (mkLoopExit status i address), h, [])
      | S fuel' =>
          if HAL_Status_eqb (fst p) HAL_OK then
            if negb (v =? d) then
              (Ret (mkLoopExit (Z.lor status (FLASH_ERROR_READBACK hdr)) i address),
               snd p,
               [EvProgram FLASH_TYPEPROGRAM_DOUBLEWORD address d (fst p); EvRead64 address v])
            else
              let r := flash_write_loop hal hdr fuel' data length (wrap32 (i + 1))
                            (wrap32 (address + 8)) status (snd p) in
              (result_of r, hw_of r,
               EvProgram FLASH_TYPEPROGRAM_DOUBLEWORD address d (fst p) :: EvRead64 address v :: trace_of r)
          else
            (Ret (mkLoopExit (Z.lor status (FLASH_ERROR_WRITE hdr)) i address),
             snd p,
             [EvProgram FLASH_TYPEPROGRAM_DOUBLEWORD address d (fst p)])
      end
    else (Ret (mkLoopExit status i address), h, []).
Proof.
  intros d p v. subst d p v.
  destruct fuel as [| fuel']; cbn [flash_write_loop];
    destruct ((i <? length / 2) && (address <=? USER_FLASH_END_ADDRESS - 8));
    try reflexivity.
  unfold HAL_FLASH_Program, read_uint64. run_driver.
  destruct (hal_program hal _ address _ h) as [r h1]. run_driver.
  destruct (HAL_Status_eqb r HAL_OK); run_driver; [ | reflexivity ].
  destruct (negb (mem_read64 hal h1 address =? read_dword data i));
    run_driver; [ reflexivity | ].
  destruct (flash_write_loop hal hdr fuel' data length _ _ status h1)
    as [[o h2] t2].
  run_driver. reflexivity.
Qed.

(** The loop is ordinary code: it always comes back with its variables. *)
Lemma flash_write_loop_returns (fuel : nat) :
  forall i address status h,
    exists e, result_of (flash_write_loop hal hdr fuel data length i address status h) = Ret e.
Proof.
  induction fuel as [| fuel IH]; intros i address status h;
    rewrite flash_write_loop_unfold; cbv zeta;
    destruct ((i <? length / 2) && (address <=? USER_FLASH_END_ADDRESS - 8));
    try (eexists; reflexivity).
  destruct (HAL_Status_eqb _ HAL_OK); [ | eexists; reflexivity ].
  destruct (negb _); [ eexists; reflexivity | ].
  run_driver. apply IH.
Qed.

(** With [length / 2] units of fuel (or more) the flash_write_loop hal hdr never stops for
    lack of fuel: more fuel gives the same run. *)
Lemma flash_write_loop_fuel (n m : nat) :
  length / 2 < 2 ^ 32 ->
  forall i address status h,
    0 <= i ->
    length / 2 - i <= Z.of_nat n ->
    flash_write_loop hal hdr (n + m)%nat data length i address status h
    = flash_write_loop hal hdr n data length i address status h.
Proof.
  intros Hlen.
  induction n as [| n IH]; intros i address status h Hi Hn;
    rewrite (flash_write_loop_unfold (_ + m));
    match goal with
    | |- _ = flash_write_loop hal hdr ?k _ _ _ _ _ _ => rewrite (flash_write_loop_unfold k)
    end;
    cbv zeta.
  - destruct (Z.ltb_spec i (length / 2)) as [Hlt | Hge]; [ lia | ].
    reflexivity.
  - destruct (Z.ltb_spec i (length / 2)) as [Hlt | Hge]; [ | reflexivity ].
    cbn [andb plus].
    destruct (address <=? USER_FLASH_END_ADDRESS - 8); [ | reflexivity ].
    destruct (HAL_Status_eqb _ HAL_OK); [ | reflexivity ].
    destruct (negb _); [ reflexivity | ].
    rewrite (wrap32_small (i + 1)) by (unfold is_uint32; lia).
    rewrite IH by lia. reflexivity.
Qed.

(** In particular the fuel that [flash_write] passes is enough for every
    [uint32_t] length. *)
Corollary flash_write_fuel_suffices (m : nat) (address status : Z) (h : HW) :
  is_uint32 length ->
  flash_write_loop hal hdr (Z.to_nat (length / 2) + m)%nat data length
                   0 address status h
  = flash_write_loop hal hdr (Z.to_nat (length / 2)) data length
                     0 address status h.
Proof.
  intros [Hlo Hhi].
  assert (Hhalf : 0 <= length / 2 < 2 ^ 32).
  { split; [ apply Z.div_pos; lia | ].
    apply Z.div_lt_upper_bound; lia. }
  apply flash_write_loop_fuel; lia.
Qed.

(** A program request that the HAL rejects ends the loop with the write
    error or-ed into the status. *)
Lemma flash_write_loop_write_failure (fuel : nat) :
  forall i address status h pre post ty a d r,
    trace_of (flash_write_loop hal hdr fuel data length i address status h)
    = pre ++ EvProgram ty a d r :: post ->
    r <> HAL_OK ->
    post = [] /\
    exists e, result_of (flash_write_loop hal hdr fuel data length i address status h) = Ret e /\
              exit_status e = Z.lor status (FLASH_ERROR_WRITE hdr).
Proof.
  induction fuel as [| fuel IH]; intros i address status h pre post ty a d r;
    rewrite flash_write_loop_unfold; cbv zeta;
    destruct ((i <? length / 2) && (address <=? USER_FLASH_END_ADDRESS - 8));
    run_driver; intros Ht Hr;
    try (destruct pre; discriminate Ht).
  destruct (HAL_Status_eqb _ HAL_OK) eqn:Eok.
  - apply HAL_Status_eqb_eq in Eok.
    destruct (negb _); run_driver in Ht.
    + destruct pre as [| x [| y pre]]; cbn [app] in Ht.
      * injection Ht as _ _ _ Hr' _. congruence.
      * discriminate Ht.
      * destruct pre; discriminate Ht.
    + run_driver.
      destruct pre as [| x [| y pre]]; cbn [app] in Ht.
      * injection Ht as _ _ _ Hr' _. congruence.
      * discriminate Ht.
      * injection Ht as _ _ Ht. exact (IH _ _ _ _ _ _ _ _ _ _ Ht Hr).
  - destruct pre as [| x pre]; cbn [app] in Ht.
    + injection Ht as _ _ _ _ Hpost. split; [ symmetry; exact Hpost | ].
      eexists; split; reflexivity.
    + destruct pre; discriminate Ht.
Qed.

(** A read-back that differs from the programmed double-word ends the loop
    with the read-back error or-ed into the status. *)
Lemma flash_write_loop_readback_mismatch (fuel : nat) :
  forall i address status h pre post ty a d r a' v,
    trace_of (flash_write_loop hal hdr fuel data length i address status h)
    = pre ++ EvProgram ty a d r :: EvRead64 a' v :: post ->
    v <> d ->
    post = [] /\
    exists e, result_of (flash_write_loop hal hdr fuel data length i address status h) = Ret e /\
              exit_status e = Z.lor status (FLASH_ERROR_READBACK hdr).
Proof.
  induction fuel as [| fuel IH];
    intros i address status h pre post ty a d r a' v;
    rewrite flash_write_loop_unfold; cbv zeta;
    destruct ((i <? length / 2) && (address <=? USER_FLASH_END_ADDRESS - 8));
    run_driver; intros Ht Hv;
    try (destruct pre; discriminate Ht).
  destruct (HAL_Status_eqb _ HAL_OK) eqn:Eok.
  - destruct (Z.eqb_spec (mem_read64 hal
                (snd (hal_program hal FLASH_TYPEPROGRAM_DOUBLEWORD address (read_dword data i) h)) address)
                (read_dword data i)) as [Heq | Hne];
      cbn [negb] in *; run_driver; run_driver in Ht.
    + destruct pre as [| x [| y pre]]; cbn [app] in Ht.
      * injection Ht as _ _ Hd _ _ Hv' _. congruence.
      * discriminate Ht.
      * injection Ht as _ _ Ht. exact (IH _ _ _ _ _ _ _ _ _ _ _ _ Ht Hv).
    + destruct pre as [| x [| y pre]]; cbn [app] in Ht.
      * injection Ht as _ _ _ _ _ _ Hpost. split; [ symmetry; exact Hpost | ].
        eexists; split; reflexivity.
      * discriminate Ht.
      * destruct pre; discriminate Ht.
  - destruct pre as [| x pre]; cbn [app] in Ht.
    + discriminate Ht.
    + destruct pre; discriminate Ht.
Qed.

End WriteLoopFacts.

Lemma slots_last_bound (n : nat) :
  forall address bound,
    Forall (fun a => a <= bound) (slots address n) ->
    (0 < n)%nat ->
    address + 8 * (Z.of_nat n - 1) <= bound.
Proof.
  induction n as [| n IH]; intros address bound Hall Hn; [ lia | ].
  cbn [slots] in Hall. inversion Hall as [| ? ? Hhd Htl]; subst.
  destruct n as [| n'].
  - cbn. lia.
  - specialize (IH (address + 8) bound Htl ltac:(lia)). lia.
Qed.

Section WriteBoundFacts.

Context {HW : Type}.
Variable hal : HAL HW.
Variable hdr : flash_h.
Variable data : list Z.
Variable length : Z.

(** Every program request of the loop is at or below the last slot. *)
Lemma flash_write_loop_bound (fuel : nat) :
  forall i address status h,
    Forall (fun c => destination c <= USER_FLASH_END_ADDRESS - 8)
           (program_calls (trace_of (flash_write_loop hal hdr fuel data length i address status h))).
Proof.
  induction fuel as [| fuel IH]; intros i address status h;
    rewrite flash_write_loop_unfold; cbv zeta;
    destruct (i <? length / 2); cbn [andb]; try (constructor; fail);
    destruct (Z.leb_spec address (USER_FLASH_END_ADDRESS - 8)) as [Hle | Hgt];
    try (constructor; fail).
  destruct (HAL_Status_eqb _ HAL_OK).
  - destruct (negb _); run_driver; cbn [program_calls].
    + constructor; [ exact Hle | constructor ].
    + constructor; [ exact Hle | apply IH ].
  - run_driver; cbn [program_calls]. constructor; [ exact Hle | constructor ].
Qed.

(** The destinations are consecutive slots from the start address: the
    increments of [address] never wrap around. *)
Lemma flash_write_loop_slots (fuel : nat) :
  forall i address status h,
    0 <= address ->
    let calls :=
      program_calls (trace_of (flash_write_loop hal hdr fuel data length i address status h)) in
    map destination calls = slots address (List.length calls).
Proof.
  induction fuel as [| fuel IH]; intros i address status h Ha;
    rewrite flash_write_loop_unfold; cbv zeta;
    destruct (i <? length / 2); cbn [andb]; try reflexivity;
    destruct (Z.leb_spec address (USER_FLASH_END_ADDRESS - 8)) as [Hle | Hgt];
    try reflexivity.
  destruct (HAL_Status_eqb _ HAL_OK).
  - destruct (negb _); run_driver; cbn [program_calls]; [ reflexivity | ].
    cbn [map List.length slots destination fst]. f_equal.
    assert (Hw : wrap32 (address + 8) = address + 8).
    { apply wrap32_small. unfold is_uint32, USER_FLASH_END_ADDRESS in *. lia. }
    rewrite Hw. apply IH. lia.
  - run_driver; cbn [program_calls]. reflexivity.
Qed.

(** Leaving the loop with [address] past the last slot means that no
    [break] was taken: the status is the one the loop started with. *)
Lemma flash_write_loop_past_end (fuel : nat) :
  forall i address status h e,
    result_of (flash_write_loop hal hdr fuel data length i address status h) = Ret e ->
    USER_FLASH_END_ADDRESS - 8 < exit_address e ->
    exit_status e = status.
Proof.
  induction fuel as [| fuel IH]; intros i address status h e;
    rewrite flash_write_loop_unfold; cbv zeta;
    destruct (i <? length / 2); cbn [andb];
    try (run_driver; intros [= <-] _; reflexivity);
    destruct (Z.leb_spec address (USER_FLASH_END_ADDRESS - 8)) as [Hle | Hgt];
    try (run_driver; intros [= <-]; cbn [exit_address exit_status]; intros;
         first [ reflexivity | lia ]).
  destruct (HAL_Status_eqb _ HAL_OK).
  - destruct (negb _); run_driver.
    + intros [= <-]; cbn [exit_address]; lia.
    + apply IH.
  - run_driver. intros [= <-]; cbn [exit_address]; lia.
Qed.

(** The run of [flash_write]: unlock, the loop, lock; the status returned
    is the one the loop ended with. *)
Lemma flash_write_run (address : Z) (h : HW) :
  let u := hal_unlock hal h in
  let r := flash_write_loop hal hdr (Z.to_nat (length / 2)) data length 0 address
                (FLASH_OK hdr) (snd u) in
  let l := hal_lock hal (hw_of r) in
  exists e,
    result_of r = Ret e /\
    flash_write hal hdr address data length h
    = (Ret (exit_status e), snd l,
       EvUnlock (fst u) :: trace_of r ++ [EvLock (fst l)]).
Proof.
  intros u r l. subst u r l.
  destruct (flash_write_loop_returns hal hdr data length
              (Z.to_nat (length / 2)) 0 address (FLASH_OK hdr)
              (snd (hal_unlock hal h))) as [e He].
  exists e. split; [ exact He | ].
  unfold flash_write, HAL_FLASH_Unlock, HAL_FLASH_Lock. run_driver.
  destruct (hal_unlock hal h) as [r0 h1]. run_driver. run_driver in He.
  destruct (flash_write_loop hal hdr _ data length 0 address _ h1)
    as [[o h2] t2].
  run_driver. run_driver in He. subst o.
  destruct (hal_lock hal h2) as [r2 h3]. run_driver.
  reflexivity.
Qed.

End WriteBoundFacts.

(** ** The model on the simulated board *)

Example flash_erase_from_base :
  flash_erase (TestDouble.hal TestDouble.no_faults) TestDouble.header
              FLASH_START_ADRESS TestDouble.fresh
  = (Ret 0, TestDouble.fresh,
     [EvUnlock HAL_OK;
      EvErase (bank1_request 0) HAL_OK;
      EvErase (bank2_request 256) HAL_OK;
      EvLock HAL_OK]).
Proof. vm_compute. reflexivity. Qed.

Example flash_erase_last_two_pages :
  trace_of (flash_erase (TestDouble.hal TestDouble.no_faults) TestDouble.header
                        0x080FF000 TestDouble.fresh)
  = [EvUnlock HAL_OK; EvErase (bank2_request 2) HAL_OK; EvLock HAL_OK].
Proof. vm_compute. reflexivity. Qed.

Example flash_write_two_double_words :
  flash_write (TestDouble.hal TestDouble.no_faults) TestDouble.header
              0x08010000 [0x11111111; 0x22222222; 0x33333333; 0x44444444] 4
              TestDouble.fresh
  = (Ret 0,
     {| TestDouble.lock_bit := true;
        TestDouble.cells := [(0x08010008, 0x4444444433333333);
                             (0x08010000, 0x2222222211111111)];
        TestDouble.msp := 0x20018000;
        TestDouble.peripherals_up := true |},
     [EvUnlock HAL_OK;
      EvProgram FLASH_TYPEPROGRAM_DOUBLEWORD 0x08010000 0x2222222211111111 HAL_OK;
      EvRead64 0x08010000 0x2222222211111111;
      EvProgram FLASH_TYPEPROGRAM_DOUBLEWORD 0x08010008 0x4444444433333333 HAL_OK;
      EvRead64 0x08010008 0x4444444433333333;
      EvLock HAL_OK]).
Proof. vm_compute. reflexivity. Qed.

Example flash_write_odd_length_drops_last_word :
  program_calls
    (trace_of (flash_write (TestDouble.hal TestDouble.no_faults) TestDouble.header
                           0x08010000 [1; 2; 3] 3 TestDouble.fresh))
  = [(0x08010000, 0x0000000200000001, HAL_OK)].
Proof. vm_compute. reflexivity. Qed.

Example FLASH_Init_on_fresh_board :
  FLASH_Init (TestDouble.hal TestDouble.no_faults) TestDouble.header TestDouble.fresh
  = (Ret tt, TestDouble.fresh,
     [EvUnlock HAL_OK; EvClearFlag 0x8091; EvLock HAL_OK]).
Proof. vm_compute. reflexivity. Qed.

(** * The claims *)

(** ** flash_erase *)

Lemma NbrOfPages_page_in_range (hdr : flash_h) (address : Z) :
  0 < FLASH_PAGE_SIZE hdr ->
  NbrOfPages_from hdr address <= FLASH_PAGE_NBPERBANK ->
  wrap32 (FLASH_PAGE_NBPERBANK - NbrOfPages_from hdr address)
  = FLASH_PAGE_NBPERBANK - NbrOfPages_from hdr address.
Proof.
  intros Hps Hle. apply wrap32_small.
  pose proof (NbrOfPages_from_nonneg hdr address Hps) as Hn.
  unfold is_uint32, FLASH_PAGE_NBPERBANK in *. lia.
Qed.

Lemma bank1_page_in_range (n : Z) :
  wrap32 (FLASH_PAGE_NBPERBANK - n mod FLASH_PAGE_NBPERBANK)
  = FLASH_PAGE_NBPERBANK - n mod FLASH_PAGE_NBPERBANK.
Proof.
  apply wrap32_small. unfold is_uint32, FLASH_PAGE_NBPERBANK.
  pose proof (Z.mod_pos_bound n 256 ltac:(lia)). lia.
Qed.

(** C1: when the page count from [start_address] to the end of flash does
    not exceed the 256 pages of one bank, [flash_erase] makes no request
    on bank 1 and exactly one erase request, on bank 2, for that many
    pages starting at page 256 minus that count.  This holds for every
    such address, also for one that lies in bank 1. *)
Theorem flash_erase_small_count_erases_bank2_only
  {HW : Type} (hal : HAL HW) (hdr : flash_h) (address : Z) (h : HW) :
  0 < FLASH_PAGE_SIZE hdr ->
  NbrOfPages_from hdr address <= FLASH_PAGE_NBPERBANK ->
  exists r0 r1 r2,
    trace_of (flash_erase hal hdr address h)
    = [EvUnlock r0;
       EvErase (bank2_request (NbrOfPages_from hdr address)) r1;
       EvLock r2].
Proof.
  intros Hps Hle.
  rewrite (flash_erase_one_bank hal hdr address h Hle). cbv zeta.
  rewrite (NbrOfPages_page_in_range hdr address Hps Hle).
  run_driver. do 3 eexists. reflexivity.
Qed.

(** An address in bank 1 (below 0x08080000 on a 1 MiB part) whose page
    count is 256: only bank 2, pages 0 to 255, is requested. *)
Lemma flash_erase_small_count_witness :
  0 < FLASH_PAGE_SIZE TestDouble.header /\
  NbrOfPages_from TestDouble.header 0x0807FFF8 <= FLASH_PAGE_NBPERBANK /\
  0x0807FFF8 < TestDouble.bank_base FLASH_BANK_2 /\
  exists r0 r1 r2,
    trace_of (flash_erase (TestDouble.hal TestDouble.no_faults)
                          TestDouble.header 0x0807FFF8 TestDouble.fresh)
    = [EvUnlock r0;
       EvErase (bank2_request (NbrOfPages_from TestDouble.header 0x0807FFF8)) r1;
       EvLock r2].
Proof.
  split; [ reflexivity | ].
  split; [ vm_compute; discriminate | ].
  split; [ reflexivity | ].
  apply (flash_erase_small_count_erases_bank2_only
           (TestDouble.hal TestDouble.no_faults) TestDouble.header
           0x0807FFF8 TestDouble.fresh).
  - reflexivity.
  - vm_compute; discriminate.
Defined.

(** C2, with the guard of line 68: when the page count exceeds 256, [flash_erase] first
    requests on bank 1 the erase of (count modulo 256) pages starting at
    page 256 minus that number; if the HAL reports success for it, it then
    requests on bank 2 the erase of 256 pages starting at page 0; if the
    HAL reports a failure, no request on bank 2 follows. *)
Theorem flash_erase_large_count_bank1_then_bank2
  {HW : Type} (hal : HAL HW) (hdr : flash_h) (address : Z) (h : HW) :
  NbrOfPages_from hdr address > FLASH_PAGE_NBPERBANK ->
  exists r0 r1 rest,
    trace_of (flash_erase hal hdr address h)
    = EvUnlock r0
      :: EvErase (bank1_request (NbrOfPages_from hdr address mod FLASH_PAGE_NBPERBANK)) r1
      :: rest /\
    (r1 = HAL_OK ->
     exists r2 r3,
       rest = [EvErase {| TypeErase := FLASH_TYPEERASE_PAGES;
                          Banks := FLASH_BANK_2;
                          Page := 0;
                          NbPages := 256 |} r2;
               EvLock r3]) /\
    (r1 <> HAL_OK -> exists r3, rest = [EvLock r3]).
Proof.
  intros Hgt.
  rewrite (flash_erase_two_banks hal hdr address h Hgt). cbv zeta.
  rewrite bank1_page_in_range.
  destruct (HAL_Status_eqb _ HAL_OK) eqn:E1; run_driver.
  - apply HAL_Status_eqb_eq in E1.
    do 3 eexists. split; [ reflexivity | ]. split.
    + intros _. do 2 eexists. reflexivity.
    + intros Hne. contradiction.
  - apply HAL_Status_eqb_neq in E1.
    do 3 eexists. split; [ reflexivity | ]. split.
    + intros Hok. contradiction.
    + intros _. eexists. reflexivity.
Qed.

Lemma flash_erase_large_count_witness :
  NbrOfPages_from TestDouble.header 0x08000800 > FLASH_PAGE_NBPERBANK /\
  exists r0 r1 rest,
    trace_of (flash_erase (TestDouble.hal TestDouble.no_faults)
                          TestDouble.header 0x08000800 TestDouble.fresh)
    = EvUnlock r0
      :: EvErase (bank1_request
                    (NbrOfPages_from TestDouble.header 0x08000800
                     mod FLASH_PAGE_NBPERBANK)) r1
      :: rest /\
    (r1 = HAL_OK ->
     exists r2 r3,
       rest = [EvErase {| TypeErase := FLASH_TYPEERASE_PAGES;
                          Banks := FLASH_BANK_2;
                          Page := 0;
                          NbPages := 256 |} r2;
               EvLock r3]) /\
    (r1 <> HAL_OK -> exists r3, rest = [EvLock r3]).
Proof.
  split; [ reflexivity | ].
  apply (flash_erase_large_count_bank1_then_bank2
           (TestDouble.hal TestDouble.no_faults) TestDouble.header
           0x08000800 TestDouble.fresh).
  reflexivity.
Defined.

(** C2 without that guard does not hold: with a page count of 511 and a
    controller that rejects the bank-1 request, no request on bank 2 is
    made. *)
Lemma flash_erase_bank1_rejected_skips_bank2 :
  NbrOfPages_from TestDouble.header 0x08000800 > FLASH_PAGE_NBPERBANK /\
  erase_calls
    (trace_of (flash_erase (TestDouble.hal TestDouble.bank1_broken)
                           TestDouble.header 0x08000800 TestDouble.fresh))
  = [(bank1_request 255, HAL_ERROR)] /\
  ~ exists r,
      In (EvErase {| TypeErase := FLASH_TYPEERASE_PAGES;
                     Banks := FLASH_BANK_2;
                     Page := 0;
                     NbPages := 256 |} r)
         (trace_of (flash_erase (TestDouble.hal TestDouble.bank1_broken)
                                TestDouble.header 0x08000800 TestDouble.fresh)).
Proof.
  split; [ reflexivity | ].
  split; [ vm_compute; reflexivity | ].
  intros [r Hin]. vm_compute in Hin.
  repeat (destruct Hin as [Hin | Hin]; [ discriminate Hin | ]).
  exact Hin.
Qed.

(** C3: [flash_erase] returns [FLASH_OK] exactly when every erase request
    it made was answered with [HAL_OK]; and when the request on bank 1 is
    answered with a failure, it returns [FLASH_ERROR] and has made no
    request on bank 2. *)
Theorem flash_erase_status_follows_hal
  {HW : Type} (hal : HAL HW) (hdr : flash_h) (address : Z) (h : HW) :
  FLASH_OK hdr <> FLASH_ERROR hdr ->
  exists st,
    result_of (flash_erase hal hdr address h) = Ret st /\
    (st = FLASH_OK hdr <->
     Forall (fun c => snd c = HAL_OK)
            (erase_calls (trace_of (flash_erase hal hdr address h)))) /\
    (forall e r,
        In (e, r) (erase_calls (trace_of (flash_erase hal hdr address h))) ->
        Banks e = FLASH_BANK_1 ->
        r <> HAL_OK ->
        st = FLASH_ERROR hdr /\
        forall e' r',
          In (e', r') (erase_calls (trace_of (flash_erase hal hdr address h))) ->
          Banks e' <> FLASH_BANK_2).
Proof.
  intros Hcodes.
  destruct (Z.gtb_spec (NbrOfPages_from hdr address) FLASH_PAGE_NBPERBANK)
    as [Hgt | Hle].
  - rewrite (flash_erase_two_banks hal hdr address h ltac:(lia)). cbv zeta.
    set (x1 := hal_erase hal _ _).
    destruct (HAL_Status_eqb (fst (fst x1)) HAL_OK) eqn:E1; run_driver;
      cbn [erase_calls].
    + apply HAL_Status_eqb_eq in E1.
      set (x2 := hal_erase hal _ _).
      eexists. split; [ reflexivity | ]. split.
      * destruct (HAL_Status_eqb HAL_OK (fst (fst x2))) eqn:E2.
        -- apply HAL_Status_eqb_eq in E2.
           split; [ intros _ | reflexivity ].
           repeat constructor; cbn [snd]; congruence.
        -- apply HAL_Status_eqb_neq in E2.
           split; [ intros Hst; congruence | ].
           intros Hall. inversion Hall as [| ? ? _ Htl]; subst.
           inversion Htl as [| ? ? Hr2 _]; subst. cbn [snd] in Hr2. congruence.
      * intros e r [Hin | [Hin | []]] Hb Hr; injection Hin as <- <-.
        -- congruence.
        -- discriminate Hb.
    + apply HAL_Status_eqb_neq in E1.
      eexists. split; [ reflexivity | ]. split.
      * split; [ intros Hst; congruence | ].
        intros Hall. inversion Hall as [| ? ? Hr1 _]; subst.
        cbn [snd] in Hr1. congruence.
      * intros e r _ _ _. split; [ reflexivity | ].
        intros e' r' [Hin | []]. injection Hin as <- <-.
        cbn [Banks]. discriminate.
  - rewrite (flash_erase_one_bank hal hdr address h Hle). cbv zeta.
    run_driver; cbn [erase_calls].
    set (x := hal_erase hal _ _).
    eexists. split; [ reflexivity | ]. split.
    + destruct (HAL_Status_eqb HAL_OK (fst (fst x))) eqn:E.
      * apply HAL_Status_eqb_eq in E.
        split; [ intros _ | reflexivity ].
        repeat constructor; cbn [snd]; congruence.
      * apply HAL_Status_eqb_neq in E.
        split; [ intros Hst; congruence | ].
        intros Hall. inversion Hall as [| ? ? Hr _]; subst.
        cbn [snd] in Hr. congruence.
    + intros e r [Hin | []] Hb _. injection Hin as <- <-.
      discriminate Hb.
Qed.

Lemma flash_erase_status_witness :
  FLASH_OK TestDouble.header <> FLASH_ERROR TestDouble.header /\
  exists st,
    result_of (flash_erase (TestDouble.hal TestDouble.bank1_broken)
                           TestDouble.header 0x08000800 TestDouble.fresh)
    = Ret st /\
    (st = FLASH_OK TestDouble.header <->
     Forall (fun c => snd c = HAL_OK)
            (erase_calls
               (trace_of (flash_erase (TestDouble.hal TestDouble.bank1_broken)
                                      TestDouble.header 0x08000800
                                      TestDouble.fresh)))) /\
    (forall e r,
        In (e, r)
           (erase_calls
              (trace_of (flash_erase (TestDouble.hal TestDouble.bank1_broken)
                                     TestDouble.header 0x08000800
                                     TestDouble.fresh))) ->
        Banks e = FLASH_BANK_1 ->
        r <> HAL_OK ->
        st = FLASH_ERROR TestDouble.header /\
        forall e' r',
          In (e', r')
             (erase_calls
                (trace_of (flash_erase (TestDouble.hal TestDouble.bank1_broken)
                                       TestDouble.header 0x08000800
                                       TestDouble.fresh))) ->
          Banks e' <> FLASH_BANK_2).
Proof.
  split; [ discriminate | ].
  apply (flash_erase_status_follows_hal
           (TestDouble.hal TestDouble.bank1_broken) TestDouble.header
           0x08000800 TestDouble.fresh).
  discriminate.
Defined.

(** C9: when the page count is larger than 256 and an exact multiple of
    256 (512 for the flash base address on a 1 MiB part), the request that
    [flash_erase] makes on bank 1 is for 0 pages starting at page 256, and
    it is the only request on bank 1: no page of bank 1 is asked to be
    erased. *)
Theorem flash_erase_full_range_requests_no_bank1_page
  {HW : Type} (hal : HAL HW) (hdr : flash_h) (address : Z) (h : HW) :
  NbrOfPages_from hdr address > FLASH_PAGE_NBPERBANK ->
  NbrOfPages_from hdr address mod FLASH_PAGE_NBPERBANK = 0 ->
  exists r0 r1 rest,
    trace_of (flash_erase hal hdr address h)
    = EvUnlock r0
      :: EvErase {| TypeErase := FLASH_TYPEERASE_PAGES;
                    Banks := FLASH_BANK_1;
                    Page := 256;
                    NbPages := 0 |} r1
      :: rest /\
    forall e r, In (e, r) (erase_calls rest) -> Banks e = FLASH_BANK_2.
Proof.
  intros Hgt Hmod.
  rewrite (flash_erase_two_banks hal hdr address h Hgt). cbv zeta.
  rewrite bank1_page_in_range, Hmod.
  change (FLASH_PAGE_NBPERBANK - 0) with 256.
  destruct (HAL_Status_eqb _ HAL_OK); run_driver;
    do 3 eexists; (split; [ reflexivity | ]); cbn [erase_calls].
  - intros e r [Hin | []]. injection Hin as <- _. reflexivity.
  - intros e r [].
Qed.

Lemma flash_erase_full_range_witness :
  NbrOfPages_from TestDouble.header FLASH_START_ADRESS = 512 /\
  NbrOfPages_from TestDouble.header FLASH_START_ADRESS > FLASH_PAGE_NBPERBANK /\
  NbrOfPages_from TestDouble.header FLASH_START_ADRESS mod FLASH_PAGE_NBPERBANK = 0 /\
  exists r0 r1 rest,
    trace_of (flash_erase (TestDouble.hal TestDouble.no_faults)
                          TestDouble.header FLASH_START_ADRESS TestDouble.fresh)
    = EvUnlock r0
      :: EvErase {| TypeErase := FLASH_TYPEERASE_PAGES;
                    Banks := FLASH_BANK_1;
                    Page := 256;
                    NbPages := 0 |} r1
      :: rest /\
    forall e r, In (e, r) (erase_calls rest) -> Banks e = FLASH_BANK_2.
Proof.
  split; [ reflexivity | ].
  split; [ reflexivity | ].
  split; [ reflexivity | ].
  apply (flash_erase_full_range_requests_no_bank1_page
           (TestDouble.hal TestDouble.no_faults) TestDouble.header
           FLASH_START_ADRESS TestDouble.fresh); reflexivity.
Defined.

(** ** flash_write *)

Lemma program_calls_app (t1 t2 : list event) :
  program_calls (t1 ++ t2) = program_calls t1 ++ program_calls t2.
Proof.
  induction t1 as [| ev t1 IH]; [ reflexivity | ].
  destruct ev; cbn [app program_calls]; rewrite IH; reflexivity.
Qed.

(** An element found in [l ++ [x]] that is not [x] lies in [l]. *)
Lemma split_before_last {A : Type} (l pre post : list A) (x y : A) :
  l ++ [x] = pre ++ y :: post ->
  x <> y ->
  exists post', post = post' ++ [x] /\ l = pre ++ y :: post'.
Proof.
  revert l pre. induction post as [| z post _] using rev_ind; intros l pre Heq Hxy.
  - apply app_inj_tail in Heq. destruct Heq as [_ Heq]. congruence.
  - rewrite app_comm_cons, app_assoc in Heq.
    apply app_inj_tail in Heq. destruct Heq as [Hl Hx]. subst z.
    exists post. split; [ reflexivity | exact Hl ].
Qed.

(** C4: [flash_write] stops at the first faulty double-word and its status
    names the cause.  A program request that the HAL answers with a failure
    is the last thing done before the final lock, and the status returned
    is [FLASH_ERROR_WRITE]; a program request answered with [HAL_OK] whose
    read-back differs from the double-word programmed is, with that
    read-back, the last thing done before the final lock, and the status
    returned is [FLASH_ERROR_READBACK]. *)
Theorem flash_write_aborts_at_first_fault
  {HW : Type} (hal : HAL HW) (hdr : flash_h)
  (address : Z) (data : list Z) (length : Z) (h : HW) :
  FLASH_OK hdr = 0 ->
  (forall pre post ty a d r,
      trace_of (flash_write hal hdr address data length h)
      = pre ++ EvProgram ty a d r :: post ->
      r <> HAL_OK ->
      result_of (flash_write hal hdr address data length h)
      = Ret (FLASH_ERROR_WRITE hdr) /\
      program_calls post = [] /\
      exists rl, post = [EvLock rl]) /\
  (forall pre post ty a d v,
      trace_of (flash_write hal hdr address data length h)
      = pre ++ EvProgram ty a d HAL_OK :: EvRead64 a v :: post ->
      v <> d ->
      result_of (flash_write hal hdr address data length h)
      = Ret (FLASH_ERROR_READBACK hdr) /\
      program_calls post = [] /\
      exists rl, post = [EvLock rl]).
Proof.
  intros Hok.
  destruct (flash_write_run hal hdr data length address h) as [e [He Hrun]].
  rewrite Hrun. run_driver. split.
  - intros pre post ty a d r Ht Hr.
    destruct pre as [| x pre]; [ discriminate Ht | ].
    cbn [app] in Ht. injection Ht as _ Ht.
    apply split_before_last in Ht; [ | discriminate ].
    destruct Ht as [post' [Hpost Ht]].
    destruct (flash_write_loop_write_failure hal hdr data length _ _ _ _ _
                _ _ _ _ _ _ Ht Hr) as [Hnil [e' [He' Hst]]].
    rewrite He in He'. injection He' as <-.
    subst post post'. rewrite Hst, Hok, Z.lor_0_l.
    split; [ reflexivity | ]. split; [ reflexivity | ].
    eexists; reflexivity.
  - intros pre post ty a d v Ht Hv.
    destruct pre as [| x pre]; [ discriminate Ht | ].
    cbn [app] in Ht. injection Ht as _ Ht.
    change (pre ++ EvProgram ty a d HAL_OK :: EvRead64 a v :: post)
      with (pre ++ [EvProgram ty a d HAL_OK] ++ EvRead64 a v :: post) in Ht.
    rewrite app_assoc in Ht.
    apply split_before_last in Ht; [ | discriminate ].
    destruct Ht as [post' [Hpost Ht]].
    rewrite <- app_assoc in Ht. cbn [app] in Ht.
    destruct (flash_write_loop_readback_mismatch hal hdr data length _ _ _ _ _
                _ _ _ _ _ _ _ _ Ht Hv) as [Hnil [e' [He' Hst]]].
    rewrite He in He'. injection He' as <-.
    subst post post'. rewrite Hst, Hok, Z.lor_0_l.
    split; [ reflexivity | ]. split; [ reflexivity | ].
    eexists; reflexivity.
Qed.

(** Six words written at 0x08010000.  With the first program request
    rejected the run is unlock, one request, lock, and the status is the
    write error; with the second slot corrupted the run ends after the
    second read-back, the third double-word is never requested, and the
    status is the read-back error. *)
Lemma flash_write_fault_witness :
  FLASH_OK TestDouble.header = 0 /\
  (result_of (flash_write (TestDouble.hal (TestDouble.program_rejected_at 0x08010000))
                          TestDouble.header 0x08010000 [1; 2; 3; 4; 5; 6] 6
                          TestDouble.fresh)
   = Ret (FLASH_ERROR_WRITE TestDouble.header) /\
   program_calls [EvLock HAL_OK] = [] /\
   exists rl, [EvLock HAL_OK] = [EvLock rl]) /\
  (result_of (flash_write (TestDouble.hal (TestDouble.corrupted_at 0x08010008))
                          TestDouble.header 0x08010000 [1; 2; 3; 4; 5; 6] 6
                          TestDouble.fresh)
   = Ret (FLASH_ERROR_READBACK TestDouble.header) /\
   program_calls [EvLock HAL_OK] = [] /\
   exists rl, [EvLock HAL_OK] = [EvLock rl]).
Proof.
  split; [ reflexivity | ]. split.
  - apply (proj1 (flash_write_aborts_at_first_fault
                    (TestDouble.hal (TestDouble.program_rejected_at 0x08010000))
                    TestDouble.header 0x08010000 [1; 2; 3; 4; 5; 6] 6
                    TestDouble.fresh eq_refl)
                 [EvUnlock HAL_OK] [EvLock HAL_OK]
                 FLASH_TYPEPROGRAM_DOUBLEWORD 0x08010000 8589934593 HAL_ERROR).
    + vm_compute; reflexivity.
    + discriminate.
  - apply (proj2 (flash_write_aborts_at_first_fault
                    (TestDouble.hal (TestDouble.corrupted_at 0x08010008))
                    TestDouble.header 0x08010000 [1; 2; 3; 4; 5; 6] 6
                    TestDouble.fresh eq_refl)
                 [EvUnlock HAL_OK;
                  EvProgram FLASH_TYPEPROGRAM_DOUBLEWORD 0x08010000 8589934593 HAL_OK;
                  EvRead64 0x08010000 8589934593]
                 [EvLock HAL_OK]
                 FLASH_TYPEPROGRAM_DOUBLEWORD 0x08010008 17179869187 17179869186).
    + vm_compute; reflexivity.
    + discriminate.
Defined.

(** C5: whatever the address, the data and the length, every program
    request of [flash_write] has a destination of at most
    [USER_FLASH_END_ADDRESS - 8]; the destinations are the consecutive
    slots [address], [address + 8], ... with no wrap-around; and the
    requests end before the slots leave the region, however many
    double-words the caller asked for. *)
Theorem flash_write_stays_below_end
  {HW : Type} (hal : HAL HW) (hdr : flash_h)
  (address : Z) (data : list Z) (length : Z) (h : HW) :
  is_uint32 address ->
  Forall (fun c => destination c <= USER_FLASH_END_ADDRESS - 8)
         (program_calls (trace_of (flash_write hal hdr address data length h))) /\
  map destination
      (program_calls (trace_of (flash_write hal hdr address data length h)))
  = slots address
      (List.length
         (program_calls (trace_of (flash_write hal hdr address data length h)))) /\
  (program_calls (trace_of (flash_write hal hdr address data length h)) <> [] ->
   address
   + 8 * Z.of_nat
           (List.length
              (program_calls (trace_of (flash_write hal hdr address data length h))))
   <= USER_FLASH_END_ADDRESS).
Proof.
  intros [Ha _].
  destruct (flash_write_run hal hdr data length address h) as [e [_ Hrun]].
  rewrite Hrun. run_driver.
  cbn [program_calls]. rewrite program_calls_app. cbn [program_calls].
  rewrite app_nil_r.
  pose proof (flash_write_loop_bound hal hdr data length
                (Z.to_nat (length / 2)) 0 address (FLASH_OK hdr)
                (snd (hal_unlock hal h))) as Hbound.
  pose proof (flash_write_loop_slots hal hdr data length
                (Z.to_nat (length / 2)) 0 address (FLASH_OK hdr)
                (snd (hal_unlock hal h)) Ha) as Hslots.
  cbv zeta in Hslots.
  split; [ exact Hbound | ]. split; [ exact Hslots | ].
  intros Hne.
  set (calls := program_calls _) in *.
  assert (Hall : Forall (fun a => a <= USER_FLASH_END_ADDRESS - 8)
                        (slots address (List.length calls))).
  { rewrite <- Hslots. apply Forall_map. exact Hbound. }
  assert (Hpos : (0 < List.length calls)%nat).
  { destruct calls; [ congruence | cbn; lia ]. }
  pose proof (slots_last_bound _ _ _ Hall Hpos). lia.
Qed.

(** Seven words offered sixteen bytes before the end of the region: two
    double-words are programmed, at 0x0807FFF0 and 0x0807FFF8, and the
    third is not. *)
Lemma flash_write_stays_below_end_witness :
  is_uint32 0x0807FFF0 /\
  map destination
      (program_calls
         (trace_of (flash_write (TestDouble.hal TestDouble.no_faults)
                                TestDouble.header 0x0807FFF0
                                [1; 2; 3; 4; 5; 6; 7] 7 TestDouble.fresh)))
  = [0x0807FFF0; 0x0807FFF8] /\
  (Forall (fun c => destination c <= USER_FLASH_END_ADDRESS - 8)
          (program_calls
             (trace_of (flash_write (TestDouble.hal TestDouble.no_faults)
                                    TestDouble.header 0x0807FFF0
                                    [1; 2; 3; 4; 5; 6; 7] 7 TestDouble.fresh))) /\
   map destination
       (program_calls
          (trace_of (flash_write (TestDouble.hal TestDouble.no_faults)
                                 TestDouble.header 0x0807FFF0
                                 [1; 2; 3; 4; 5; 6; 7] 7 TestDouble.fresh)))
   = slots 0x0807FFF0
       (List.length
          (program_calls
             (trace_of (flash_write (TestDouble.hal TestDouble.no_faults)
                                    TestDouble.header 0x0807FFF0
                                    [1; 2; 3; 4; 5; 6; 7] 7 TestDouble.fresh)))) /\
   (program_calls
      (trace_of (flash_write (TestDouble.hal TestDouble.no_faults)
                             TestDouble.header 0x0807FFF0
                             [1; 2; 3; 4; 5; 6; 7] 7 TestDouble.fresh)) <> [] ->
    0x0807FFF0
    + 8 * Z.of_nat
            (List.length
               (program_calls
                  (trace_of (flash_write (TestDouble.hal TestDouble.no_faults)
                                         TestDouble.header 0x0807FFF0
                                         [1; 2; 3; 4; 5; 6; 7] 7 TestDouble.fresh))))
    <= USER_FLASH_END_ADDRESS)).
Proof.
  assert (Hrange : is_uint32 0x0807FFF0) by (unfold is_uint32; lia).
  split; [ exact Hrange | ].
  split; [ vm_compute; reflexivity | ].
  exact (flash_write_stays_below_end
           (TestDouble.hal TestDouble.no_faults) TestDouble.header
           0x0807FFF0 [1; 2; 3; 4; 5; 6; 7] 7 TestDouble.fresh Hrange).
Defined.

(** C7: with [length = 0], [flash_write] makes no program request and
    returns [FLASH_OK]. *)
Theorem flash_write_zero_length
  {HW : Type} (hal : HAL HW) (hdr : flash_h)
  (address : Z) (data : list Z) (h : HW) :
  result_of (flash_write hal hdr address data 0 h) = Ret (FLASH_OK hdr) /\
  program_calls (trace_of (flash_write hal hdr address data 0 h)) = [] /\
  exists r0 r1,
    trace_of (flash_write hal hdr address data 0 h) = [EvUnlock r0; EvLock r1].
Proof.
  destruct (flash_write_run hal hdr data 0 address h) as [e [He Hrun]].
  rewrite Hrun. clear Hrun.
  change (Z.to_nat (0 / 2)) with 0%nat in *.
  rewrite flash_write_loop_unfold in *. cbv zeta in *.
  change (0 <? 0 / 2) with false in *. cbn [andb] in *.
  run_driver. run_driver in He. injection He as <-.
  cbn [exit_status program_calls].
  split; [ reflexivity | ]. split; [ reflexivity | ].
  do 2 eexists; reflexivity.
Qed.

(** C10: when [flash_write] leaves its loop because the address has passed
    the last slot of the region while double-words of the source are still
    to be written, it returns [FLASH_OK]. *)
Theorem flash_write_truncation_returns_ok
  {HW : Type} (hal : HAL HW) (hdr : flash_h)
  (address : Z) (data : list Z) (length : Z) (h : HW) (e : loop_exit) :
  flash_write_exit hal hdr address data length h = Ret e ->
  exit_i e < length / 2 ->
  USER_FLASH_END_ADDRESS - 8 < exit_address e ->
  result_of (flash_write hal hdr address data length h) = Ret (FLASH_OK hdr).
Proof.
  unfold flash_write_exit. intros He Hi Haddr.
  destruct (flash_write_run hal hdr data length address h) as [e' [He' Hrun]].
  rewrite Hrun. run_driver.
  rewrite He in He'. injection He' as <-.
  f_equal.
  exact (flash_write_loop_past_end hal hdr data length _ _ _ _ _ _ He Haddr).
Qed.

(** Seven words offered sixteen bytes before the end of the region: the
    loop is left with [i = 2] of 3 and the address at the end of the
    region, and the status is [FLASH_OK]. *)
Lemma flash_write_truncation_witness :
  flash_write_exit (TestDouble.hal TestDouble.no_faults) TestDouble.header
                   0x0807FFF0 [1; 2; 3; 4; 5; 6; 7] 7 TestDouble.fresh
  = Ret {| exit_status := 0; exit_i := 2; exit_address := 0x08080000 |} /\
  2 < 7 / 2 /\
  USER_FLASH_END_ADDRESS - 8 < 0x08080000 /\
  result_of (flash_write (TestDouble.hal TestDouble.no_faults) TestDouble.header
                         0x0807FFF0 [1; 2; 3; 4; 5; 6; 7] 7 TestDouble.fresh)
  = Ret (FLASH_OK TestDouble.header).
Proof.
  split; [ vm_compute; reflexivity | ].
  split; [ reflexivity | ].
  split; [ reflexivity | ].
  apply (flash_write_truncation_returns_ok
           (TestDouble.hal TestDouble.no_faults) TestDouble.header
           0x0807FFF0 [1; 2; 3; 4; 5; 6; 7] 7 TestDouble.fresh
           {| exit_status := 0; exit_i := 2; exit_address := 0x08080000 |}).
  - vm_compute; reflexivity.
  - reflexivity.
  - reflexivity.
Defined.

(** ** Locking *)

Lemma FLASH_Init_run {HW : Type} (hal : HAL HW) (hdr : flash_h) (h : HW) :
  let u := hal_unlock hal h in
  let mask := Z.lor (Z.lor (Z.lor (FLASH_FLAG_EOP hdr) (FLASH_FLAG_PGSERR hdr))
                           (FLASH_FLAG_WRPERR hdr))
                    (FLASH_FLAG_OPTVERR hdr) in
  let l := hal_lock hal (hal_clear_flag hal mask (snd u)) in
  FLASH_Init hal hdr h
  = (Ret tt, snd l, [EvUnlock (fst u); EvClearFlag mask; EvLock (fst l)]).
Proof.
  intros u mask l. subst u mask l.
  unfold FLASH_Init, HAL_FLASH_Unlock, HAL_FLASH_CLEAR_FLAG, HAL_FLASH_Lock.
  run_driver.
  destruct (hal_unlock hal h) as [r0 h1]. run_driver.
  destruct (hal_lock hal _) as [r1 h2]. run_driver. reflexivity.
Qed.

(** C6: [FLASH_Init], [flash_erase] and [flash_write] each return with the
    flash controller locked, on every path: whatever the HAL answers to the
    unlock, clear-flags, erase and program requests, the last thing each of
    them does is the lock request.  The one assumption is the contract of
    [HAL_FLASH_Lock]: it leaves the controller locked. *)
Theorem flash_operations_return_locked
  {HW : Type} (hal : HAL HW) (hdr : flash_h) :
  (forall h, flash_locked hal (snd (hal_lock hal h)) = true) ->
  (forall h, returns_locked hal (FLASH_Init hal hdr h)) /\
  (forall address h, returns_locked hal (flash_erase hal hdr address h)) /\
  (forall address data length h,
      returns_locked hal (flash_write hal hdr address data length h)).
Proof.
  intros Hlock. unfold returns_locked. repeat split.
  - rewrite FLASH_Init_run. eexists; reflexivity.
  - rewrite FLASH_Init_run. run_driver. apply Hlock.
  - rewrite FLASH_Init_run. run_driver.
    exists [EvUnlock (fst (hal_unlock hal h)); EvClearFlag
              (Z.lor (Z.lor (Z.lor (FLASH_FLAG_EOP hdr) (FLASH_FLAG_PGSERR hdr))
                            (FLASH_FLAG_WRPERR hdr))
                     (FLASH_FLAG_OPTVERR hdr))].
    eexists. reflexivity.
  - destruct (Z.gtb_spec (NbrOfPages_from hdr address) FLASH_PAGE_NBPERBANK).
    + rewrite flash_erase_two_banks by lia. cbv zeta.
      destruct (HAL_Status_eqb _ HAL_OK); eexists; reflexivity.
    + rewrite flash_erase_one_bank by assumption. eexists; reflexivity.
  - destruct (Z.gtb_spec (NbrOfPages_from hdr address) FLASH_PAGE_NBPERBANK).
    + rewrite flash_erase_two_banks by lia. cbv zeta.
      destruct (HAL_Status_eqb _ HAL_OK); run_driver; apply Hlock.
    + rewrite flash_erase_one_bank by assumption. run_driver. apply Hlock.
  - destruct (Z.gtb_spec (NbrOfPages_from hdr address) FLASH_PAGE_NBPERBANK).
    + rewrite flash_erase_two_banks by lia. cbv zeta.
      destruct (HAL_Status_eqb _ HAL_OK); run_driver.
      * eexists [_; _; _]. eexists. reflexivity.
      * eexists [_; _]. eexists. reflexivity.
    + rewrite flash_erase_one_bank by assumption. run_driver.
      eexists [_; _]. eexists. reflexivity.
  - destruct (flash_write_run hal hdr data length address h) as [e [_ Hrun]].
    rewrite Hrun. eexists; reflexivity.
  - destruct (flash_write_run hal hdr data length address h) as [e [_ Hrun]].
    rewrite Hrun. run_driver. apply Hlock.
  - destruct (flash_write_run hal hdr data length address h) as [e [_ Hrun]].
    rewrite Hrun. run_driver.
    eexists (_ :: _). eexists. rewrite <- app_comm_cons. reflexivity.
Qed.

(** On the simulated board, with a controller that rejects what it is asked
    to do: a rejected bank-1 erase and a rejected program request. *)
Lemma flash_operations_return_locked_witness :
  (forall h, flash_locked (TestDouble.hal TestDouble.bank1_broken)
                          (snd (hal_lock (TestDouble.hal TestDouble.bank1_broken) h))
             = true) /\
  (forall h, flash_locked (TestDouble.hal (TestDouble.program_rejected_at 0x08010000))
                          (snd (hal_lock
                                  (TestDouble.hal
                                     (TestDouble.program_rejected_at 0x08010000)) h))
             = true) /\
  returns_locked (TestDouble.hal TestDouble.bank1_broken)
                 (FLASH_Init (TestDouble.hal TestDouble.bank1_broken)
                             TestDouble.header TestDouble.fresh) /\
  returns_locked (TestDouble.hal TestDouble.bank1_broken)
                 (flash_erase (TestDouble.hal TestDouble.bank1_broken)
                              TestDouble.header 0x08000800 TestDouble.fresh) /\
  returns_locked (TestDouble.hal (TestDouble.program_rejected_at 0x08010000))
                 (flash_write (TestDouble.hal
                                 (TestDouble.program_rejected_at 0x08010000))
                              TestDouble.header 0x08010000 [1; 2; 3; 4] 4
                              TestDouble.fresh).
Proof.
  assert (H1 : forall h,
             flash_locked (TestDouble.hal TestDouble.bank1_broken)
               (snd (hal_lock (TestDouble.hal TestDouble.bank1_broken) h)) = true)
    by (intros h; reflexivity).
  assert (H2 : forall h,
             flash_locked (TestDouble.hal (TestDouble.program_rejected_at 0x08010000))
               (snd (hal_lock
                       (TestDouble.hal (TestDouble.program_rejected_at 0x08010000)) h))
             = true)
    by (intros h; reflexivity).
  split; [ exact H1 | ]. split; [ exact H2 | ].
  split; [ | split ].
  - apply (proj1 (flash_operations_return_locked
                    (TestDouble.hal TestDouble.bank1_broken)
                    TestDouble.header H1)).
  - apply (proj1 (proj2 (flash_operations_return_locked
                           (TestDouble.hal TestDouble.bank1_broken)
                           TestDouble.header H1))).
  - apply (proj2 (proj2 (flash_operations_return_locked
                           (TestDouble.hal
                              (TestDouble.program_rejected_at 0x08010000))
                           TestDouble.header H2))).
Defined.

(** ** flash_jump_to_app *)




(** * Further properties of the driver *)

(** ** flash_erase: the page count and the requests *)

Lemma wrap32_negative (z : Z) : - 2 ^ 32 <= z < 0 -> wrap32 z = z + 2 ^ 32.
Proof.
  intros Hz. unfold wrap32. symmetry.
  apply Z.mod_unique with (q := -1); lia.
Qed.

(** [flash_erase] looks at its argument only through the page count. *)
Lemma flash_erase_count_ext {HW : Type} (hal : HAL HW) (hdr : flash_h)
      (a1 a2 : Z) (h : HW) :
  NbrOfPages_from hdr a1 = NbrOfPages_from hdr a2 ->
  flash_erase hal hdr a1 h = flash_erase hal hdr a2 h.
Proof.
  intros Heq. unfold flash_erase. cbv zeta. rewrite Heq. reflexivity.
Qed.

Lemma NbrOfPages_from_offset (hdr : flash_h) (n off : Z) :
  0 < FLASH_PAGE_SIZE hdr ->
  is_uint32 (flash_end hdr) ->
  0 <= off < FLASH_PAGE_SIZE hdr ->
  off <= n * FLASH_PAGE_SIZE hdr <= flash_end hdr ->
  NbrOfPages_from hdr (flash_end hdr - n * FLASH_PAGE_SIZE hdr + off)
  = if off =? 0 then n else n - 1.
Proof.
  intros Hps Hend Hoff Hn.
  unfold NbrOfPages_from. fold (flash_end hdr).
  rewrite (wrap32_small (flash_end hdr) Hend).
  replace (flash_end hdr - (flash_end hdr - n * FLASH_PAGE_SIZE hdr + off))
    with (n * FLASH_PAGE_SIZE hdr - off) by lia.
  rewrite wrap32_small by (unfold is_uint32 in *; lia).
  destruct (Z.eqb_spec off 0) as [-> | Hne].
  - rewrite Z.sub_0_r. apply Z.div_mul. lia.
  - symmetry. apply Z.div_unique with (r := FLASH_PAGE_SIZE hdr - off); lia.
Qed.

(** X1: every erase request of [flash_erase] is a page erase that stays
    inside its bank and ends with the bank's last page ([Page + NbPages =
    256], both non-negative); there are at most two requests, and a
    request on bank 1 is never preceded by another request. *)
Theorem flash_erase_requests_end_with_the_bank
  {HW : Type} (hal : HAL HW) (hdr : flash_h) (address : Z) (h : HW) :
  0 < FLASH_PAGE_SIZE hdr ->
  Forall (fun c =>
            TypeErase (fst c) = FLASH_TYPEERASE_PAGES /\
            0 <= Page (fst c) /\
            0 <= NbPages (fst c) /\
            Page (fst c) + NbPages (fst c) = FLASH_PAGE_NBPERBANK)
         (erase_calls (trace_of (flash_erase hal hdr address h))) /\
  (List.length (erase_calls (trace_of (flash_erase hal hdr address h))) <= 2)%nat /\
  Forall (fun c => Banks (fst c) = FLASH_BANK_2)
         (tl (erase_calls (trace_of (flash_erase hal hdr address h)))).
Proof.
  intros Hps.
  pose proof (NbrOfPages_from_nonneg hdr address Hps) as Hn.
  destruct (Z.gtb_spec (NbrOfPages_from hdr address) FLASH_PAGE_NBPERBANK)
    as [Hgt | Hle].
  - rewrite (flash_erase_two_banks hal hdr address h ltac:(lia)). cbv zeta.
    rewrite bank1_page_in_range.
    pose proof (Z.mod_pos_bound (NbrOfPages_from hdr address)
                                FLASH_PAGE_NBPERBANK ltac:(reflexivity)) as Hm.
    unfold FLASH_PAGE_NBPERBANK in *.
    destruct (HAL_Status_eqb _ HAL_OK); run_driver;
      cbn [erase_calls List.length tl];
      (split; [ | split; [ lia | ] ]);
      repeat (apply Forall_cons || apply Forall_nil);
      cbn [fst Page NbPages TypeErase Banks];
      repeat split; try reflexivity; lia.
  - rewrite (flash_erase_one_bank hal hdr address h Hle). cbv zeta.
    rewrite (NbrOfPages_page_in_range hdr address Hps Hle).
    unfold FLASH_PAGE_NBPERBANK in *.
    run_driver; cbn [erase_calls List.length tl].
    (split; [ | split; [ lia | ] ]);
      repeat (apply Forall_cons || apply Forall_nil);
      cbn [fst Page NbPages TypeErase Banks];
      repeat split; try reflexivity; lia.
Qed.

Lemma flash_erase_requests_witness :
  0 < FLASH_PAGE_SIZE TestDouble.header /\
  erase_calls
    (trace_of (flash_erase (TestDouble.hal TestDouble.no_faults)
                           TestDouble.header 0x08004000 TestDouble.fresh))
  = [({| TypeErase := FLASH_TYPEERASE_PAGES; Banks := FLASH_BANK_1;
         Page := 8; NbPages := 248 |}, HAL_OK);
     ({| TypeErase := FLASH_TYPEERASE_PAGES; Banks := FLASH_BANK_2;
         Page := 0; NbPages := 256 |}, HAL_OK)] /\
  Forall (fun c =>
            TypeErase (fst c) = FLASH_TYPEERASE_PAGES /\
            0 <= Page (fst c) /\
            0 <= NbPages (fst c) /\
            Page (fst c) + NbPages (fst c) = FLASH_PAGE_NBPERBANK)
         (erase_calls
            (trace_of (flash_erase (TestDouble.hal TestDouble.no_faults)
                                   TestDouble.header 0x08004000
                                   TestDouble.fresh))).
Proof.
  split; [ reflexivity | ].
  split; [ vm_compute; reflexivity | ].
  apply (flash_erase_requests_end_with_the_bank
           (TestDouble.hal TestDouble.no_faults) TestDouble.header
           0x08004000 TestDouble.fresh).
  reflexivity.
Defined.

(** X2: the page count of lines 52-53 is exact for a start address on a
    page boundary and rounds down otherwise: [n] pages before the end of
    flash give [n], and any address strictly inside the first of these
    pages gives [n - 1]. *)
Theorem NbrOfPages_from_rounds_down (hdr : flash_h) (n off : Z) :
  0 < FLASH_PAGE_SIZE hdr ->
  is_uint32 (flash_end hdr) ->
  1 <= n ->
  n * FLASH_PAGE_SIZE hdr <= flash_end hdr ->
  0 < off < FLASH_PAGE_SIZE hdr ->
  NbrOfPages_from hdr (flash_end hdr - n * FLASH_PAGE_SIZE hdr) = n /\
  NbrOfPages_from hdr (flash_end hdr - n * FLASH_PAGE_SIZE hdr + off) = n - 1.
Proof.
  intros Hps Hend Hn Hfit Hoff. split.
  - pose proof (NbrOfPages_from_offset hdr n 0 Hps Hend ltac:(lia) ltac:(nia))
      as H0.
    rewrite Z.add_0_r in H0. exact H0.
  - pose proof (NbrOfPages_from_offset hdr n off Hps Hend ltac:(lia) ltac:(nia))
      as H1.
    destruct (Z.eqb_spec off 0); [ lia | exact H1 ].
Qed.

Lemma NbrOfPages_from_rounds_down_witness :
  0 < FLASH_PAGE_SIZE TestDouble.header /\
  is_uint32 (flash_end TestDouble.header) /\
  flash_end TestDouble.header - 3 * FLASH_PAGE_SIZE TestDouble.header = 0x080FE800 /\
  NbrOfPages_from TestDouble.header
                  (flash_end TestDouble.header - 3 * FLASH_PAGE_SIZE TestDouble.header)
  = 3 /\
  NbrOfPages_from TestDouble.header
                  (flash_end TestDouble.header
                   - 3 * FLASH_PAGE_SIZE TestDouble.header + 4)
  = 3 - 1.
Proof.
  assert (Hend : is_uint32 (flash_end TestDouble.header))
    by (unfold is_uint32; cbn; lia).
  split; [ reflexivity | ].
  split; [ exact Hend | ].
  split; [ reflexivity | ].
  apply (NbrOfPages_from_rounds_down TestDouble.header 3 4).
  - reflexivity.
  - exact Hend.
  - reflexivity || (vm_compute; discriminate).
  - vm_compute; discriminate.
  - split; reflexivity.
Defined.

(** X3: a start address that is not on a page boundary is rounded up:
    [flash_erase] does for it exactly what it does for the start of the
    next page, so the page that holds the address is not erased. *)
Theorem flash_erase_unaligned_start_is_rounded_up
  {HW : Type} (hal : HAL HW) (hdr : flash_h) (n off : Z) (h : HW) :
  0 < FLASH_PAGE_SIZE hdr ->
  is_uint32 (flash_end hdr) ->
  1 <= n ->
  n * FLASH_PAGE_SIZE hdr <= flash_end hdr ->
  0 < off < FLASH_PAGE_SIZE hdr ->
  flash_erase hal hdr (flash_end hdr - n * FLASH_PAGE_SIZE hdr + off) h
  = flash_erase hal hdr (flash_end hdr - (n - 1) * FLASH_PAGE_SIZE hdr) h.
Proof.
  intros Hps Hend Hn Hfit Hoff.
  apply flash_erase_count_ext.
  pose proof (NbrOfPages_from_offset hdr n off Hps Hend ltac:(lia) ltac:(nia))
    as H1.
  pose proof (NbrOfPages_from_offset hdr (n - 1) 0 Hps Hend ltac:(lia) ltac:(nia))
    as H0.
  rewrite Z.add_0_r in H0.
  destruct (Z.eqb_spec off 0); [ lia | ].
  rewrite H1, H0. reflexivity.
Qed.

(** Erasing from 0x080FE804, four bytes into the third page from the end:
    that page is left alone and the last two pages are requested. *)
Lemma flash_erase_unaligned_witness :
  0 < FLASH_PAGE_SIZE TestDouble.header /\
  is_uint32 (flash_end TestDouble.header) /\
  flash_end TestDouble.header - 3 * FLASH_PAGE_SIZE TestDouble.header + 4
  = 0x080FE804 /\
  erase_calls
    (trace_of (flash_erase (TestDouble.hal TestDouble.no_faults) TestDouble.header
                 (flash_end TestDouble.header
                  - 3 * FLASH_PAGE_SIZE TestDouble.header + 4)
                 TestDouble.fresh))
  = [({| TypeErase := FLASH_TYPEERASE_PAGES; Banks := FLASH_BANK_2;
         Page := 254; NbPages := 2 |}, HAL_OK)] /\
  flash_erase (TestDouble.hal TestDouble.no_faults) TestDouble.header
              (flash_end TestDouble.header
               - 3 * FLASH_PAGE_SIZE TestDouble.header + 4)
              TestDouble.fresh
  = flash_erase (TestDouble.hal TestDouble.no_faults) TestDouble.header
                (flash_end TestDouble.header
                 - (3 - 1) * FLASH_PAGE_SIZE TestDouble.header)
                TestDouble.fresh.
Proof.
  assert (Hend : is_uint32 (flash_end TestDouble.header))
    by (unfold is_uint32; cbn; lia).
  split; [ reflexivity | ].
  split; [ exact Hend | ].
  split; [ reflexivity | ].
  split; [ vm_compute; reflexivity | ].
  apply (flash_erase_unaligned_start_is_rounded_up
           (TestDouble.hal TestDouble.no_faults) TestDouble.header 3 4
           TestDouble.fresh).
  - reflexivity.
  - exact Hend.
  - reflexivity || (vm_compute; discriminate).
  - vm_compute; discriminate.
  - split; reflexivity.
Defined.

(** X4: [flash_erase] does not reject a start address outside the flash.
    On a part with two banks of 256 pages, for every 32-bit address below
    the flash base or above the end of flash the page count comes out
    larger than 256 (above the end, by wrap-around of the subtraction), so
    a request on bank 1 is made and, when the HAL accepts it, all 256
    pages of bank 2 are requested. *)
Theorem flash_erase_out_of_range_wipes_bank2
  {HW : Type} (hal : HAL HW) (hdr : flash_h) (address : Z) (h : HW) :
  0 < FLASH_PAGE_SIZE hdr ->
  FLASH_SIZE hdr = FLASH_BANK_NUMBER * FLASH_PAGE_NBPERBANK * FLASH_PAGE_SIZE hdr ->
  is_uint32 (flash_end hdr) ->
  is_uint32 address ->
  address < FLASH_START_ADRESS \/ flash_end hdr < address ->
  NbrOfPages_from hdr address > FLASH_PAGE_NBPERBANK /\
  exists r0 r1 rest,
    trace_of (flash_erase hal hdr address h)
    = EvUnlock r0
      :: EvErase (bank1_request (NbrOfPages_from hdr address mod FLASH_PAGE_NBPERBANK)) r1
      :: rest /\
    (r1 = HAL_OK ->
     exists r2 r3,
       rest = [EvErase {| TypeErase := FLASH_TYPEERASE_PAGES;
                          Banks := FLASH_BANK_2;
                          Page := 0;
                          NbPages := 256 |} r2;
               EvLock r3]).
Proof.
  intros Hps Hsize Hend Haddr Hout.
  assert (Hcount : NbrOfPages_from hdr address > FLASH_PAGE_NBPERBANK).
  { unfold NbrOfPages_from. fold (flash_end hdr).
    rewrite (wrap32_small (flash_end hdr) Hend).
    unfold flash_end, is_uint32, FLASH_START_ADRESS, FLASH_BANK_NUMBER,
      FLASH_PAGE_NBPERBANK in *.
    assert (Hbig : 512 * FLASH_PAGE_SIZE hdr
                   <= wrap32 (134217728 + FLASH_SIZE hdr - address)).
    { destruct Hout as [Hlow | Hhigh].
      - rewrite wrap32_small by (unfold is_uint32; lia). lia.
      - rewrite wrap32_negative by lia. lia. }
    pose proof (Z.div_le_lower_bound _ _ 512 Hps
                  ltac:(rewrite Z.mul_comm; exact Hbig)).
    lia. }
  split; [ exact Hcount | ].
  rewrite (flash_erase_two_banks hal hdr address h Hcount). cbv zeta.
  rewrite bank1_page_in_range.
  destruct (HAL_Status_eqb _ HAL_OK) eqn:E1; run_driver.
  - do 3 eexists. split; [ reflexivity | ].
    intros _. do 2 eexists. reflexivity.
  - apply HAL_Status_eqb_neq in E1.
    do 3 eexists. split; [ reflexivity | ].
    intros Hok. contradiction.
Qed.

(** One page above the end of a 1 MiB flash: the count is 2097151, the
    request on bank 1 is for 255 pages from page 1, and bank 2 is wiped. *)
Lemma flash_erase_out_of_range_witness :
  0 < FLASH_PAGE_SIZE TestDouble.header /\
  is_uint32 0x08100800 /\
  flash_end TestDouble.header < 0x08100800 /\
  erase_calls
    (trace_of (flash_erase (TestDouble.hal TestDouble.no_faults)
                           TestDouble.header 0x08100800 TestDouble.fresh))
  = [({| TypeErase := FLASH_TYPEERASE_PAGES; Banks := FLASH_BANK_1;
         Page := 1; NbPages := 255 |}, HAL_OK);
     ({| TypeErase := FLASH_TYPEERASE_PAGES; Banks := FLASH_BANK_2;
         Page := 0; NbPages := 256 |}, HAL_OK)] /\
  NbrOfPages_from TestDouble.header 0x08100800 > FLASH_PAGE_NBPERBANK.
Proof.
  assert (Hend : is_uint32 (flash_end TestDouble.header))
    by (unfold is_uint32; cbn; lia).
  assert (Haddr : is_uint32 0x08100800) by (unfold is_uint32; lia).
  split; [ reflexivity | ].
  split; [ exact Haddr | ].
  split; [ reflexivity | ].
  split; [ vm_compute; reflexivity | ].
  apply (flash_erase_out_of_range_wipes_bank2
           (TestDouble.hal TestDouble.no_faults) TestDouble.header
           0x08100800 TestDouble.fresh).
  - reflexivity.
  - reflexivity.
  - exact Hend.
  - exact Haddr.
  - right. reflexivity.
Defined.

(** X5: whatever the start address, [flash_erase] never asks for page 0 of
    bank 1: a request on bank 1 starts at page 1 or later and covers at
    most 255 pages. *)
Theorem flash_erase_never_requests_first_page
  {HW : Type} (hal : HAL HW) (hdr : flash_h) (address : Z) (h : HW) :
  Forall (fun c =>
            Banks (fst c) = FLASH_BANK_1 ->
            1 <= Page (fst c) /\ NbPages (fst c) <= 255)
         (erase_calls (trace_of (flash_erase hal hdr address h))).
Proof.
  destruct (Z.gtb_spec (NbrOfPages_from hdr address) FLASH_PAGE_NBPERBANK)
    as [Hgt | Hle].
  - rewrite (flash_erase_two_banks hal hdr address h ltac:(lia)). cbv zeta.
    rewrite bank1_page_in_range.
    pose proof (Z.mod_pos_bound (NbrOfPages_from hdr address)
                                FLASH_PAGE_NBPERBANK ltac:(reflexivity)) as Hm.
    unfold FLASH_PAGE_NBPERBANK in *.
    destruct (HAL_Status_eqb _ HAL_OK); run_driver; cbn [erase_calls];
      repeat (apply Forall_cons || apply Forall_nil);
      cbn [fst Page NbPages Banks]; intros Hb;
      first [ discriminate Hb | lia ].
  - rewrite (flash_erase_one_bank hal hdr address h Hle). cbv zeta.
    run_driver; cbn [erase_calls].
    repeat (apply Forall_cons || apply Forall_nil).
    cbn [fst Banks]. intros Hb. discriminate Hb.
Qed.

(** ** flash_write: what is programmed, and the status *)

Section WriteLoopMore.

Context {HW : Type}.
Variable hal : HAL HW.
Variable hdr : flash_h.
Variable data : list Z.

(** The loop looks at [length] only through [length / 2]. *)
Lemma flash_write_loop_length_ext (length1 length2 : Z) (fuel : nat) :
  length1 / 2 = length2 / 2 ->
  forall i address status h,
    flash_write_loop hal hdr fuel data length1 i address status h
    = flash_write_loop hal hdr fuel data length2 i address status h.
Proof.
  intros Hhalf.
  induction fuel as [| fuel IH]; intros i address status h;
    rewrite (flash_write_loop_unfold hal hdr data length1),
            (flash_write_loop_unfold hal hdr data length2);
    cbv zeta; rewrite Hhalf; [ reflexivity | ].
  rewrite IH. reflexivity.
Qed.

(** What the loop programs is the source, in order, slot after slot; and it
    makes no more requests than there are double-words left. *)
Lemma flash_write_loop_plan (length : Z) (fuel : nat) :
  length / 2 < 2 ^ 32 ->
  forall i address status h,
    0 <= i ->
    0 <= address ->
    let calls :=
      program_calls
        (trace_of (flash_write_loop hal hdr fuel data length i address status h)) in
    map fst calls = write_plan data i address (List.length calls) /\
    i + Z.of_nat (List.length calls) <= Z.max i (length / 2).
Proof.
  intros Hlen.
  induction fuel as [| fuel IH]; intros i address status h Hi Ha;
    rewrite flash_write_loop_unfold; cbv zeta;
    destruct (Z.ltb_spec i (length / 2)) as [Hlt | Hge]; cbn [andb];
    try (run_driver; cbn [program_calls map List.length write_plan]; split;
         [ reflexivity | lia ]);
    destruct (Z.leb_spec address (USER_FLASH_END_ADDRESS - 8)) as [Hle | Hgt];
    try (run_driver; cbn [program_calls map List.length write_plan]; split;
         [ reflexivity | lia ]).
  destruct (HAL_Status_eqb _ HAL_OK).
  - destruct (negb _); run_driver;
      cbn [program_calls map List.length write_plan fst];
      [ split; [ reflexivity | lia ] | ].
    assert (Hi' : wrap32 (i + 1) = i + 1)
      by (apply wrap32_small; unfold is_uint32; lia).
    assert (Ha' : wrap32 (address + 8) = address + 8)
      by (apply wrap32_small; unfold is_uint32, USER_FLASH_END_ADDRESS in *; lia).
    rewrite Hi', Ha'.
    destruct (IH (i + 1) (address + 8) status
                 (snd (hal_program hal FLASH_TYPEPROGRAM_DOUBLEWORD address
                                   (read_dword data i) h))
                 ltac:(lia) ltac:(lia)) as [Hplan Hcount].
    split; [ f_equal; exact Hplan | lia ].
  - run_driver; cbn [program_calls map List.length write_plan fst].
    split; [ reflexivity | lia ].
Qed.

(** With a controller that accepts and verifies every request, the loop
    runs until the source or the region is used up, and keeps its status. *)
Lemma flash_write_loop_complete (length : Z) (fuel : nat) :
  programs_and_verifies hal ->
  length / 2 < 2 ^ 32 ->
  forall i address status h,
    0 <= i ->
    0 <= address ->
    length / 2 - i <= Z.of_nat fuel ->
    let r := flash_write_loop hal hdr fuel data length i address status h in
    program_calls (trace_of r)
    = map (fun q => (q, HAL_OK))
          (write_plan data i address
             (Z.to_nat (Z.min (length / 2 - i)
                              ((USER_FLASH_END_ADDRESS - address) / 8)))) /\
    exists e, result_of r = Ret e /\ exit_status e = status.
Proof.
  intros Hgood Hlen.
  induction fuel as [| fuel IH]; intros i address status h Hi Ha Hfuel;
    rewrite flash_write_loop_unfold; cbv zeta;
    destruct (Z.ltb_spec i (length / 2)) as [Hlt | Hge]; cbn [andb];
    try lia;
    try (run_driver; cbn [program_calls];
         replace (Z.to_nat _) with 0%nat by lia;
         split; [ reflexivity | eexists; split; reflexivity ]).
  destruct (Z.leb_spec address (USER_FLASH_END_ADDRESS - 8)) as [Hle | Hgt].
  - destruct (Hgood FLASH_TYPEPROGRAM_DOUBLEWORD address (read_dword data i) h)
      as [Hok Hrb].
    rewrite Hok, Hrb, Z.eqb_refl. cbn [HAL_Status_eqb negb].
    run_driver. cbn [program_calls].
    assert (Hi' : wrap32 (i + 1) = i + 1)
      by (apply wrap32_small; unfold is_uint32; lia).
    assert (Ha' : wrap32 (address + 8) = address + 8)
      by (apply wrap32_small; unfold is_uint32, USER_FLASH_END_ADDRESS in *; lia).
    rewrite Hi', Ha'.
    destruct (IH (i + 1) (address + 8) status
                 (snd (hal_program hal FLASH_TYPEPROGRAM_DOUBLEWORD address
                                   (read_dword data i) h))
                 ltac:(lia) ltac:(lia) ltac:(lia)) as [Hcalls Hexit].
    split; [ | exact Hexit ].
    rewrite Hcalls.
    replace (USER_FLASH_END_ADDRESS - (address + 8))
      with (USER_FLASH_END_ADDRESS - address + (-1) * 8) by lia.
    rewrite Z.div_add by lia.
    assert (Hslots : 1 <= (USER_FLASH_END_ADDRESS - address) / 8)
      by (apply Z.div_le_lower_bound; lia).
    replace (Z.to_nat (Z.min (length / 2 - i)
                             ((USER_FLASH_END_ADDRESS - address) / 8)))
      with (S (Z.to_nat (Z.min (length / 2 - (i + 1))
                               ((USER_FLASH_END_ADDRESS - address) / 8 + -1))))
      by lia.
    reflexivity.
  - run_driver; cbn [program_calls].
    assert (Hnone : (USER_FLASH_END_ADDRESS - address) / 8 <= 0).
    { assert ((USER_FLASH_END_ADDRESS - address) / 8 < 1); [ | lia ].
      apply Z.div_lt_upper_bound; lia. }
    replace (Z.to_nat _) with 0%nat by lia.
    split; [ reflexivity | eexists; split; reflexivity ].
Qed.

(** The status with which the loop is left is the one it started with,
    possibly with one of the two error codes or-ed in. *)
Lemma flash_write_loop_status_cases (length : Z) (fuel : nat) :
  forall i address status h e,
    result_of (flash_write_loop hal hdr fuel data length i address status h)
    = Ret e ->
    exit_status e = status \/
    exit_status e = Z.lor status (FLASH_ERROR_WRITE hdr) \/
    exit_status e = Z.lor status (FLASH_ERROR_READBACK hdr).
Proof.
  induction fuel as [| fuel IH]; intros i address status h e;
    rewrite flash_write_loop_unfold; cbv zeta;
    destruct ((i <? length / 2) && (address <=? USER_FLASH_END_ADDRESS - 8));
    try (run_driver; intros [= <-]; left; reflexivity).
  destruct (HAL_Status_eqb _ HAL_OK).
  - destruct (negb _); run_driver.
    + intros [= <-]. right; right; reflexivity.
    + apply IH.
  - run_driver. intros [= <-]. right; left; reflexivity.
Qed.

(** Without a rejected request and without a differing read-back the loop
    keeps its status. *)
Lemma flash_write_loop_no_fault (length : Z) (fuel : nat) :
  forall i address status h e,
    result_of (flash_write_loop hal hdr fuel data length i address status h)
    = Ret e ->
    (forall pre ty a d r post,
        trace_of (flash_write_loop hal hdr fuel data length i address status h)
        = pre ++ EvProgram ty a d r :: post ->
        r = HAL_OK) ->
    (forall pre ty a d r v post,
        trace_of (flash_write_loop hal hdr fuel data length i address status h)
        = pre ++ EvProgram ty a d r :: EvRead64 a v :: post ->
        v = d) ->
    exit_status e = status.
Proof.
  induction fuel as [| fuel IH]; intros i address status h e;
    rewrite flash_write_loop_unfold; cbv zeta;
    destruct ((i <? length / 2) && (address <=? USER_FLASH_END_ADDRESS - 8));
    try (run_driver; intros [= <-] _ _; reflexivity).
  destruct (HAL_Status_eqb _ HAL_OK) eqn:Eok.
  - destruct (Z.eqb_spec
                (mem_read64 hal
                   (snd (hal_program hal FLASH_TYPEPROGRAM_DOUBLEWORD address
                                     (read_dword data i) h)) address)
                (read_dword data i)) as [Heq | Hne];
      cbn [negb]; run_driver.
    + intros He Hw Hr. apply (IH _ _ _ _ _ He).
      * intros pre ty a d r post Ht.
        eapply Hw with (pre := _ :: _ :: pre).
        cbn [app]. rewrite Ht. reflexivity.
      * intros pre ty a d r v post Ht.
        eapply Hr with (pre := _ :: _ :: pre).
        cbn [app]. rewrite Ht. reflexivity.
    + intros _ _ Hr. exfalso. apply Hne.
      exact (Hr [] _ _ _ _ _ [] eq_refl).
  - apply HAL_Status_eqb_neq in Eok.
    run_driver. intros _ Hw _. exfalso. apply Eok.
    exact (Hw [] _ _ _ _ [] eq_refl).
Qed.

End WriteLoopMore.

(** A program request found in the trace of [flash_write] lies in the part
    of the trace that the loop produced. *)
Lemma program_event_inside_loop (t pre post : list event)
      (u l : HAL_StatusTypeDef) (ty : FLASH_TypeProgram) (a d : Z)
      (r : HAL_StatusTypeDef) :
  EvUnlock u :: t ++ [EvLock l] = pre ++ EvProgram ty a d r :: post ->
  exists pre' post',
    pre = EvUnlock u :: pre' /\
    post = post' ++ [EvLock l] /\
    t = pre' ++ EvProgram ty a d r :: post'.
Proof.
  intros Ht.
  destruct pre as [| x pre]; [ discriminate Ht | ].
  cbn [app] in Ht. injection Ht as <- Ht.
  apply split_before_last in Ht; [ | discriminate ].
  destruct Ht as [post' [Hpost Ht]].
  exists pre, post'. repeat split; assumption.
Qed.

(** X6: whatever the HAL answers, the requests of [flash_write] are a
    prefix of the plan "source double-word k at address + 8k": the k-th
    request carries words 2k and 2k+1 of the buffer.  Twice the number of
    requests never exceeds [length], so no word at index [length] or
    beyond is programmed. *)
Theorem flash_write_programs_source_in_order
  {HW : Type} (hal : HAL HW) (hdr : flash_h)
  (address : Z) (data : list Z) (length : Z) (h : HW) :
  is_uint32 address ->
  is_uint32 length ->
  map fst (program_calls (trace_of (flash_write hal hdr address data length h)))
  = write_plan data 0 address
      (List.length
         (program_calls (trace_of (flash_write hal hdr address data length h)))) /\
  2 * Z.of_nat
        (List.length
           (program_calls (trace_of (flash_write hal hdr address data length h))))
  <= length.
Proof.
  intros [Ha _] [Hl0 Hl1].
  destruct (flash_write_run hal hdr data length address h) as [e [_ Hrun]].
  rewrite Hrun. run_driver.
  cbn [program_calls]. rewrite program_calls_app. cbn [program_calls].
  rewrite app_nil_r.
  assert (Hhalf : 0 <= length / 2 < 2 ^ 32).
  { split; [ apply Z.div_pos; lia | apply Z.div_lt_upper_bound; lia ]. }
  destruct (flash_write_loop_plan hal hdr data length (Z.to_nat (length / 2))
              ltac:(lia) 0 address (FLASH_OK hdr) (snd (hal_unlock hal h))
              ltac:(lia) Ha) as [Hplan Hcount].
  split; [ exact Hplan | ].
  pose proof (Z.mul_div_le length 2 ltac:(lia)). lia.
Qed.

Lemma flash_write_programs_source_witness :
  is_uint32 0x08010000 /\
  is_uint32 5 /\
  map fst
      (program_calls
         (trace_of (flash_write (TestDouble.hal (TestDouble.corrupted_at 0x08010008))
                                TestDouble.header 0x08010000
                                [0xA; 0xB; 0xC; 0xD; 0xE] 5 TestDouble.fresh)))
  = [(0x08010000, 0x0000000B0000000A); (0x08010008, 0x0000000D0000000C)] /\
  map fst
      (program_calls
         (trace_of (flash_write (TestDouble.hal (TestDouble.corrupted_at 0x08010008))
                                TestDouble.header 0x08010000
                                [0xA; 0xB; 0xC; 0xD; 0xE] 5 TestDouble.fresh)))
  = write_plan [0xA; 0xB; 0xC; 0xD; 0xE] 0 0x08010000
      (List.length
         (program_calls
            (trace_of (flash_write (TestDouble.hal (TestDouble.corrupted_at 0x08010008))
                                   TestDouble.header 0x08010000
                                   [0xA; 0xB; 0xC; 0xD; 0xE] 5 TestDouble.fresh)))).
Proof.
  assert (Ha : is_uint32 0x08010000) by (unfold is_uint32; lia).
  assert (Hl : is_uint32 5) by (unfold is_uint32; lia).
  split; [ exact Ha | ]. split; [ exact Hl | ].
  split; [ vm_compute; reflexivity | ].
  exact (proj1 (flash_write_programs_source_in_order
                  (TestDouble.hal (TestDouble.corrupted_at 0x08010008))
                  TestDouble.header 0x08010000 [0xA; 0xB; 0xC; 0xD; 0xE] 5
                  TestDouble.fresh Ha Hl)).
Defined.

(** X7: with a controller that accepts every program request and reads
    back what was programmed, [flash_write] returns [FLASH_OK] and programs
    exactly the first min(length / 2, (USER_FLASH_END_ADDRESS - address) / 8)
    source double-words, at consecutive slots from [address], each request
    answered [HAL_OK].  In particular everything is written when it fits
    below [USER_FLASH_END_ADDRESS]; there is no lower bound on [address]. *)
Theorem flash_write_writes_all_that_fits
  {HW : Type} (hal : HAL HW) (hdr : flash_h)
  (address : Z) (data : list Z) (length : Z) (h : HW) :
  programs_and_verifies hal ->
  is_uint32 address ->
  is_uint32 length ->
  result_of (flash_write hal hdr address data length h) = Ret (FLASH_OK hdr) /\
  program_calls (trace_of (flash_write hal hdr address data length h))
  = map (fun q => (q, HAL_OK))
        (write_plan data 0 address
           (Z.to_nat (Z.min (length / 2)
                            ((USER_FLASH_END_ADDRESS - address) / 8)))).
Proof.
  intros Hgood [Ha _] [Hl0 Hl1].
  destruct (flash_write_run hal hdr data length address h) as [e [He Hrun]].
  rewrite Hrun. run_driver.
  cbn [program_calls]. rewrite program_calls_app. cbn [program_calls].
  rewrite app_nil_r.
  assert (Hhalf : 0 <= length / 2 < 2 ^ 32).
  { split; [ apply Z.div_pos; lia | apply Z.div_lt_upper_bound; lia ]. }
  destruct (flash_write_loop_complete hal hdr data length
              (Z.to_nat (length / 2)) Hgood ltac:(lia) 0 address
              (FLASH_OK hdr) (snd (hal_unlock hal h))
              ltac:(lia) Ha ltac:(lia)) as [Hcalls [e' [He' Hst]]].
  rewrite He in He'. injection He' as <-.
  rewrite Z.sub_0_r in Hcalls.
  split; [ rewrite Hst; reflexivity | exact Hcalls ].
Qed.

Lemma test_double_programs_and_verifies :
  programs_and_verifies (TestDouble.hal TestDouble.no_faults).
Proof.
  intros ty a d h. split; [ reflexivity | ].
  cbn. unfold TestDouble.read64. cbn. rewrite Z.eqb_refl. reflexivity.
Qed.

(** Six words offered sixteen bytes before the end of the region, and
    six words offered well inside it. *)
Lemma flash_write_writes_all_that_fits_witness :
  programs_and_verifies (TestDouble.hal TestDouble.no_faults) /\
  is_uint32 0x0807FFF0 /\
  is_uint32 6 /\
  program_calls
    (trace_of (flash_write (TestDouble.hal TestDouble.no_faults) TestDouble.header
                           0x0807FFF0 [1; 2; 3; 4; 5; 6] 6 TestDouble.fresh))
  = [(0x0807FFF0, 0x0000000200000001, HAL_OK);
     (0x0807FFF8, 0x0000000400000003, HAL_OK)] /\
  Z.to_nat (Z.min (6 / 2) ((USER_FLASH_END_ADDRESS - 0x0807FFF0) / 8)) = 2%nat /\
  result_of (flash_write (TestDouble.hal TestDouble.no_faults) TestDouble.header
                         0x0807FFF0 [1; 2; 3; 4; 5; 6] 6 TestDouble.fresh)
  = Ret (FLASH_OK TestDouble.header) /\
  program_calls
    (trace_of (flash_write (TestDouble.hal TestDouble.no_faults) TestDouble.header
                           0x0807FFF0 [1; 2; 3; 4; 5; 6] 6 TestDouble.fresh))
  = map (fun q => (q, HAL_OK))
        (write_plan [1; 2; 3; 4; 5; 6] 0 0x0807FFF0
           (Z.to_nat (Z.min (6 / 2) ((USER_FLASH_END_ADDRESS - 0x0807FFF0) / 8)))).
Proof.
  assert (Ha : is_uint32 0x0807FFF0) by (unfold is_uint32; lia).
  assert (Hl : is_uint32 6) by (unfold is_uint32; lia).
  split; [ exact test_double_programs_and_verifies | ].
  split; [ exact Ha | ]. split; [ exact Hl | ].
  split; [ vm_compute; reflexivity | ].
  split; [ reflexivity | ].
  exact (flash_write_writes_all_that_fits
           (TestDouble.hal TestDouble.no_faults) TestDouble.header
           0x0807FFF0 [1; 2; 3; 4; 5; 6] 6 TestDouble.fresh
           test_double_programs_and_verifies Ha Hl).
Defined.

(** X8: a destination above the last slot of the region is not an error:
    [flash_write] makes no program request, whatever the length, and
    returns [FLASH_OK]. *)
Theorem flash_write_past_region_is_silent
  {HW : Type} (hal : HAL HW) (hdr : flash_h)
  (address : Z) (data : list Z) (length : Z) (h : HW) :
  USER_FLASH_END_ADDRESS - 8 < address ->
  result_of (flash_write hal hdr address data length h) = Ret (FLASH_OK hdr) /\
  exists r0 r1,
    trace_of (flash_write hal hdr address data length h)
    = [EvUnlock r0; EvLock r1].
Proof.
  intros Hpast.
  destruct (flash_write_run hal hdr data length address h) as [e [He Hrun]].
  rewrite Hrun. clear Hrun.
  rewrite flash_write_loop_unfold in *. cbv zeta in *.
  destruct (Z.leb_spec address (USER_FLASH_END_ADDRESS - 8)) as [Hle | _];
    [ lia | ].
  rewrite andb_false_r in *.
  run_driver. run_driver in He. injection He as <-.
  cbn [exit_status].
  split; [ reflexivity | ].
  do 2 eexists; reflexivity.
Qed.

Lemma flash_write_past_region_witness :
  USER_FLASH_END_ADDRESS - 8 < 0x08080000 /\
  result_of (flash_write (TestDouble.hal TestDouble.no_faults) TestDouble.header
                         0x08080000 [1; 2; 3; 4] 4 TestDouble.fresh)
  = Ret (FLASH_OK TestDouble.header) /\
  exists r0 r1,
    trace_of (flash_write (TestDouble.hal TestDouble.no_faults) TestDouble.header
                          0x08080000 [1; 2; 3; 4] 4 TestDouble.fresh)
    = [EvUnlock r0; EvLock r1].
Proof.
  split; [ reflexivity | ].
  apply (flash_write_past_region_is_silent
           (TestDouble.hal TestDouble.no_faults) TestDouble.header
           0x08080000 [1; 2; 3; 4] 4 TestDouble.fresh).
  reflexivity.
Defined.

(** X9: the status that [flash_write] returns is [FLASH_OK], or [FLASH_OK]
    with the write error or-ed in, or [FLASH_OK] with the read-back error
    or-ed in; the two error codes are never combined and [FLASH_ERROR] is
    never produced. *)
Theorem flash_write_status_is_one_of_three
  {HW : Type} (hal : HAL HW) (hdr : flash_h)
  (address : Z) (data : list Z) (length : Z) (h : HW) :
  exists st,
    result_of (flash_write hal hdr address data length h) = Ret st /\
    (st = FLASH_OK hdr \/
     st = Z.lor (FLASH_OK hdr) (FLASH_ERROR_WRITE hdr) \/
     st = Z.lor (FLASH_OK hdr) (FLASH_ERROR_READBACK hdr)).
Proof.
  destruct (flash_write_run hal hdr data length address h) as [e [He Hrun]].
  rewrite Hrun. run_driver.
  exists (exit_status e). split; [ reflexivity | ].
  exact (flash_write_loop_status_cases hal hdr data length _ _ _ _ _ _ He).
Qed.

(** X10: [flash_write] returns [FLASH_OK] exactly when no program request
    was answered with a failure and no read-back differed from the
    double-word programmed (with status codes where [FLASH_OK] is 0 and
    the two error codes are not). *)
Theorem flash_write_ok_iff_no_fault
  {HW : Type} (hal : HAL HW) (hdr : flash_h)
  (address : Z) (data : list Z) (length : Z) (h : HW) :
  FLASH_OK hdr = 0 ->
  FLASH_ERROR_WRITE hdr <> 0 ->
  FLASH_ERROR_READBACK hdr <> 0 ->
  result_of (flash_write hal hdr address data length h) = Ret (FLASH_OK hdr)
  <->
  (forall pre ty a d r post,
      trace_of (flash_write hal hdr address data length h)
      = pre ++ EvProgram ty a d r :: post ->
      r = HAL_OK) /\
  (forall pre ty a d r v post,
      trace_of (flash_write hal hdr address data length h)
      = pre ++ EvProgram ty a d r :: EvRead64 a v :: post ->
      v = d).
Proof.
  intros Hok Hw Hr.
  destruct (flash_write_run hal hdr data length address h) as [e [He Hrun]].
  rewrite Hrun. run_driver. split.
  - intros [= Hst]. split.
    + intros pre ty a d r post Ht.
      destruct r; try reflexivity; exfalso;
        apply program_event_inside_loop in Ht;
        destruct Ht as [pre' [post' [_ [_ Ht]]]];
        (destruct (flash_write_loop_write_failure hal hdr data length _ _ _ _ _
                     _ _ _ _ _ _ Ht ltac:(discriminate))
          as [_ [e' [He' Hst']]]);
        rewrite He in He'; injection He' as <-;
        rewrite Hst', Hok, Z.lor_0_l in Hst; congruence.
    + intros pre ty a d r v post Ht.
      destruct (Z.eq_dec v d) as [Heq | Hne]; [ exact Heq | exfalso ].
      apply program_event_inside_loop in Ht.
      destruct Ht as [pre' [post' [_ [Hpost Ht]]]].
      destruct post' as [| x post']; [ discriminate Hpost | ].
      cbn [app] in Hpost. injection Hpost as <- _.
      destruct (flash_write_loop_readback_mismatch hal hdr data length _ _ _ _ _
                  _ _ _ _ _ _ _ _ Ht Hne) as [_ [e' [He' Hst']]].
      rewrite He in He'. injection He' as <-.
      rewrite Hst', Hok, Z.lor_0_l in Hst. congruence.
  - intros [Hnw Hnr]. f_equal.
    apply (flash_write_loop_no_fault hal hdr data length _ _ _ _ _ _ He).
    + intros pre ty a d r post Ht.
      apply (Hnw (EvUnlock (fst (hal_unlock hal h)) :: pre) ty a d r
                 (post ++ [EvLock (fst (hal_lock hal
                    (hw_of (flash_write_loop hal hdr (Z.to_nat (length / 2))
                              data length 0 address (FLASH_OK hdr)
                              (snd (hal_unlock hal h))))))])).
      rewrite Ht. cbn [app]. rewrite <- app_assoc. reflexivity.
    + intros pre ty a d r v post Ht.
      apply (Hnr (EvUnlock (fst (hal_unlock hal h)) :: pre) ty a d r v
                 (post ++ [EvLock (fst (hal_lock hal
                    (hw_of (flash_write_loop hal hdr (Z.to_nat (length / 2))
                              data length 0 address (FLASH_OK hdr)
                              (snd (hal_unlock hal h))))))])).
      rewrite Ht. cbn [app]. rewrite <- app_assoc. reflexivity.
Qed.

(** A clean run and a run with a corrupted second slot. *)
Lemma flash_write_ok_iff_no_fault_witness :
  FLASH_OK TestDouble.header = 0 /\
  FLASH_ERROR_WRITE TestDouble.header <> 0 /\
  FLASH_ERROR_READBACK TestDouble.header <> 0 /\
  result_of (flash_write (TestDouble.hal TestDouble.no_faults) TestDouble.header
                         0x08010000 [1; 2; 3; 4] 4 TestDouble.fresh)
  = Ret (FLASH_OK TestDouble.header) /\
  ((forall pre ty a d r post,
       trace_of (flash_write (TestDouble.hal TestDouble.no_faults)
                             TestDouble.header 0x08010000 [1; 2; 3; 4] 4
                             TestDouble.fresh)
       = pre ++ EvProgram ty a d r :: post ->
       r = HAL_OK) /\
   (forall pre ty a d r v post,
       trace_of (flash_write (TestDouble.hal TestDouble.no_faults)
                             TestDouble.header 0x08010000 [1; 2; 3; 4] 4
                             TestDouble.fresh)
       = pre ++ EvProgram ty a d r :: EvRead64 a v :: post ->
       v = d)).
Proof.
  assert (Hw : FLASH_ERROR_WRITE TestDouble.header <> 0) by discriminate.
  assert (Hr : FLASH_ERROR_READBACK TestDouble.header <> 0) by discriminate.
  split; [ reflexivity | ]. split; [ exact Hw | ]. split; [ exact Hr | ].
  split; [ vm_compute; reflexivity | ].
  apply (proj1 (flash_write_ok_iff_no_fault
                  (TestDouble.hal TestDouble.no_faults) TestDouble.header
                  0x08010000 [1; 2; 3; 4] 4 TestDouble.fresh eq_refl Hw Hr)).
  vm_compute. reflexivity.
Defined.

(** X11: an odd [length] is rounded down: the last word of the buffer is
    not programmed, and the run is the one for [length - 1]. *)
Theorem flash_write_odd_length_ignores_last_word
  {HW : Type} (hal : HAL HW) (hdr : flash_h)
  (address : Z) (data : list Z) (k : Z) (h : HW) :
  flash_write hal hdr address data (2 * k + 1) h
  = flash_write hal hdr address data (2 * k) h.
Proof.
  assert (Hhalf : (2 * k + 1) / 2 = (2 * k) / 2).
  { rewrite (Z.mul_comm 2 k), Z.div_mul by lia.
    symmetry. apply Z.div_unique with (r := 1); lia. }
  unfold flash_write, HAL_FLASH_Unlock. run_driver.
  destruct (hal_unlock hal h) as [r0 h1]. run_driver.
  rewrite Hhalf.
  rewrite (flash_write_loop_length_ext hal hdr data (2 * k + 1) (2 * k) _ Hhalf).
  reflexivity.
Qed.

(** ** The source double-word *)

Lemma lor_shiftl_32 (lo hi : Z) :
  is_uint32 lo -> Z.lor lo (Z.shiftl hi 32) = lo + hi * 2 ^ 32.
Proof.
  intros [Hlo0 Hlo1].
  assert (Hdisj : Z.land lo (Z.shiftl hi 32) = 0).
  { apply Z.bits_inj'. intros n Hn.
    rewrite Z.land_spec, Z.bits_0.
    destruct (Z.lt_ge_cases n 32) as [Hlt | Hge].
    - rewrite (Z.shiftl_spec_low hi 32 n Hlt). apply andb_false_r.
    - assert (Hbit : Z.testbit lo n = false).
      { destruct (Z.eq_dec lo 0) as [-> | Hnz]; [ apply Z.bits_0 | ].
        apply Z.bits_above_log2; [ lia | ].
        apply Z.log2_lt_pow2; [ lia | ].
        apply Z.lt_le_trans with (2 ^ 32); [ exact Hlo1 | ].
        apply Z.pow_le_mono_r; lia. }
      rewrite Hbit. reflexivity. }
  rewrite <- Z.lxor_lor by exact Hdisj.
  rewrite <- Z.add_nocarry_lxor by exact Hdisj.
  rewrite Z.shiftl_mul_pow2 by lia. reflexivity.
Qed.

Lemma nth_is_uint32 (data : list Z) (k : nat) :
  Forall is_uint32 data -> is_uint32 (nth k data 0).
Proof.
  intros Hall. revert k.
  induction Hall as [| w data Hw _ IH]; intros [| k]; cbn [nth];
    try (unfold is_uint32; lia); [ exact Hw | apply IH ].
Qed.

(** X12: the double-word programmed for index [i] is the little-endian
    pair of the buffer's words [2i] and [2i+1]: its low 32 bits are word
    [2i], its high 32 bits are word [2i+1], and it fits in 64 bits. *)
Theorem read_dword_halves (data : list Z) (i : Z) :
  Forall is_uint32 data ->
  0 <= i < 2 ^ 31 ->
  read_dword data i mod 2 ^ 32 = nth (Z.to_nat (2 * i)) data 0 /\
  read_dword data i / 2 ^ 32 = nth (Z.to_nat (2 * i + 1)) data 0 /\
  0 <= read_dword data i < 2 ^ 64.
Proof.
  intros Hall Hi. unfold read_dword. cbv zeta.
  rewrite (wrap32_small (2 * i)) by (unfold is_uint32; lia).
  pose proof (nth_is_uint32 data (Z.to_nat (2 * i)) Hall) as Hlo.
  pose proof (nth_is_uint32 data (Z.to_nat (2 * i + 1)) Hall) as Hhi.
  rewrite (lor_shiftl_32 _ _ Hlo).
  set (lo := nth (Z.to_nat (2 * i)) data 0) in *.
  set (hi := nth (Z.to_nat (2 * i + 1)) data 0) in *.
  unfold is_uint32 in *.
  repeat split.
  - rewrite Z.mod_add by lia. apply Z.mod_small. lia.
  - rewrite Z.div_add by lia. rewrite Z.div_small by lia. lia.
  - lia.
  - lia.
Qed.

Lemma read_dword_halves_witness :
  Forall is_uint32 [0x11111111; 0x22222222; 0x33333333; 0x44444444] /\
  0 <= 1 < 2 ^ 31 /\
  read_dword [0x11111111; 0x22222222; 0x33333333; 0x44444444] 1
  = 0x4444444433333333 /\
  read_dword [0x11111111; 0x22222222; 0x33333333; 0x44444444] 1 mod 2 ^ 32
  = nth (Z.to_nat (2 * 1)) [0x11111111; 0x22222222; 0x33333333; 0x44444444] 0 /\
  read_dword [0x11111111; 0x22222222; 0x33333333; 0x44444444] 1 / 2 ^ 32
  = nth (Z.to_nat (2 * 1 + 1)) [0x11111111; 0x22222222; 0x33333333; 0x44444444] 0 /\
  0 <= read_dword [0x11111111; 0x22222222; 0x33333333; 0x44444444] 1 < 2 ^ 64.
Proof.
  assert (Hall : Forall is_uint32 [0x11111111; 0x22222222; 0x33333333; 0x44444444])
    by (repeat constructor; unfold is_uint32; lia).
  assert (Hi : 0 <= 1 < 2 ^ 31) by lia.
  split; [ exact Hall | ]. split; [ exact Hi | ].
  split; [ vm_compute; reflexivity | ].
  exact (read_dword_halves [0x11111111; 0x22222222; 0x33333333; 0x44444444] 1
                           Hall Hi).
Defined.

(** ** More on the requests *)

(** X13: when the page count is below 512 and the HAL accepts every erase
    request, the requests of [flash_erase] ask for exactly as many pages
    as were counted: the count is split between the two banks without
    loss. *)
Theorem flash_erase_requests_every_counted_page
  {HW : Type} (hal : HAL HW) (hdr : flash_h) (address : Z) (h : HW) :
  0 < FLASH_PAGE_SIZE hdr ->
  NbrOfPages_from hdr address < FLASH_BANK_NUMBER * FLASH_PAGE_NBPERBANK ->
  Forall (fun c => snd c = HAL_OK)
         (erase_calls (trace_of (flash_erase hal hdr address h))) ->
  pages_requested (erase_calls (trace_of (flash_erase hal hdr address h)))
  = NbrOfPages_from hdr address.
Proof.
  intros Hps Hlt.
  destruct (Z.gtb_spec (NbrOfPages_from hdr address) FLASH_PAGE_NBPERBANK)
    as [Hgt | Hle].
  - rewrite (flash_erase_two_banks hal hdr address h ltac:(lia)). cbv zeta.
    destruct (HAL_Status_eqb _ HAL_OK) eqn:E1; run_driver; cbn [erase_calls].
    + intros _. unfold pages_requested. cbn [fold_right fst NbPages].
      unfold FLASH_BANK_NUMBER, FLASH_PAGE_NBPERBANK in *.
      assert (Hmod : NbrOfPages_from hdr address mod 256
                     = NbrOfPages_from hdr address - 256).
      { symmetry. apply Z.mod_unique with (q := 1); lia. }
      lia.
    + apply HAL_Status_eqb_neq in E1.
      intros Hall. inversion Hall as [| ? ? Hr _]; subst.
      cbn [snd] in Hr. contradiction.
  - rewrite (flash_erase_one_bank hal hdr address h Hle). cbv zeta.
    run_driver; cbn [erase_calls]. intros _.
    unfold pages_requested. cbn [fold_right fst NbPages]. lia.
Qed.

(** Erasing from the ninth page of bank 1 on a 1 MiB part: 248 pages of
    bank 1 and 256 pages of bank 2, the 504 pages counted. *)
Lemma flash_erase_requests_every_counted_page_witness :
  0 < FLASH_PAGE_SIZE TestDouble.header /\
  NbrOfPages_from TestDouble.header 0x08004000 = 504 /\
  pages_requested
    (erase_calls
       (trace_of (flash_erase (TestDouble.hal TestDouble.no_faults)
                              TestDouble.header 0x08004000 TestDouble.fresh)))
  = NbrOfPages_from TestDouble.header 0x08004000.
Proof.
  split; [ reflexivity | ].
  split; [ reflexivity | ].
  apply (flash_erase_requests_every_counted_page
           (TestDouble.hal TestDouble.no_faults) TestDouble.header
           0x08004000 TestDouble.fresh).
  - reflexivity.
  - reflexivity.
  - vm_compute. repeat constructor.
Defined.

Lemma flash_write_loop_verifies_each_program
  {HW : Type} (hal : HAL HW) (hdr : flash_h) (data : list Z) (length : Z)
  (fuel : nat) :
  forall i address status h pre post ty a d r,
    trace_of (flash_write_loop hal hdr fuel data length i address status h)
    = pre ++ EvProgram ty a d r :: post ->
    ty = FLASH_TYPEPROGRAM_DOUBLEWORD /\
    (r = HAL_OK -> exists v post', post = EvRead64 a v :: post').
Proof.
  induction fuel as [| fuel IH]; intros i address status h pre post ty a d r;
    rewrite flash_write_loop_unfold; cbv zeta;
    destruct ((i <? length / 2) && (address <=? USER_FLASH_END_ADDRESS - 8));
    run_driver; intros Ht;
    try (destruct pre; discriminate Ht).
  destruct (HAL_Status_eqb _ HAL_OK) eqn:Eok.
  - destruct (negb _); run_driver in Ht.
    + destruct pre as [| x [| y pre]]; cbn [app] in Ht.
      * injection Ht as <- <- _ _ <-. split; [ reflexivity | ].
        intros _. do 2 eexists. reflexivity.
      * discriminate Ht.
      * destruct pre; discriminate Ht.
    + destruct pre as [| x [| y pre]]; cbn [app] in Ht.
      * injection Ht as <- <- _ _ <-. split; [ reflexivity | ].
        intros _. do 2 eexists. reflexivity.
      * discriminate Ht.
      * injection Ht as _ _ Ht. exact (IH _ _ _ _ _ _ _ _ _ _ Ht).
  - apply HAL_Status_eqb_neq in Eok.
    destruct pre as [| x pre]; cbn [app] in Ht.
    + injection Ht as <- _ _ <- _. split; [ reflexivity | ].
      intros Hok. contradiction.
    + destruct pre; discriminate Ht.
Qed.

(** X14: every program request of [flash_write] is a double-word program,
    and every request that the HAL accepts is followed at once by a
    read-back of the slot just programmed. *)
Theorem flash_write_verifies_each_program
  {HW : Type} (hal : HAL HW) (hdr : flash_h)
  (address : Z) (data : list Z) (length : Z) (h : HW)
  (pre post : list event) (ty : FLASH_TypeProgram) (a d : Z)
  (r : HAL_StatusTypeDef) :
  trace_of (flash_write hal hdr address data length h)
  = pre ++ EvProgram ty a d r :: post ->
  ty = FLASH_TYPEPROGRAM_DOUBLEWORD /\
  (r = HAL_OK -> exists v post', post = EvRead64 a v :: post').
Proof.
  destruct (flash_write_run hal hdr data length address h) as [e [_ Hrun]].
  rewrite Hrun. run_driver. intros Ht.
  apply program_event_inside_loop in Ht.
  destruct Ht as [pre' [post' [_ [Hpost Ht]]]].
  destruct (flash_write_loop_verifies_each_program hal hdr data length _ _ _ _ _
              _ _ _ _ _ _ Ht) as [Hty Hread].
  split; [ exact Hty | ].
  intros Hok. destruct (Hread Hok) as [v [post'' Hp]].
  subst post post'. exists v, (post'' ++ [EvLock
       (fst (hal_lock hal
          (hw_of (flash_write_loop hal hdr (Z.to_nat (length / 2)) data length
                    0 address (FLASH_OK hdr) (snd (hal_unlock hal h))))))]).
  reflexivity.
Qed.

Lemma flash_write_verifies_each_program_witness :
  trace_of (flash_write (TestDouble.hal TestDouble.no_faults) TestDouble.header
                        0x08010000 [1; 2; 3; 4] 4 TestDouble.fresh)
  = [EvUnlock HAL_OK;
     EvProgram FLASH_TYPEPROGRAM_DOUBLEWORD 0x08010000 0x0000000200000001 HAL_OK;
     EvRead64 0x08010000 0x0000000200000001]
    ++ EvProgram FLASH_TYPEPROGRAM_DOUBLEWORD 0x08010008 0x0000000400000003 HAL_OK
    :: [EvRead64 0x08010008 0x0000000400000003; EvLock HAL_OK] /\
  (FLASH_TYPEPROGRAM_DOUBLEWORD = FLASH_TYPEPROGRAM_DOUBLEWORD /\
   (HAL_OK = HAL_OK ->
    exists v post',
      [EvRead64 0x08010008 0x0000000400000003; EvLock HAL_OK]
      = EvRead64 0x08010008 v :: post')).
Proof.
  assert (Ht : trace_of (flash_write (TestDouble.hal TestDouble.no_faults)
                                     TestDouble.header 0x08010000 [1; 2; 3; 4] 4
                                     TestDouble.fresh)
               = [EvUnlock HAL_OK;
                  EvProgram FLASH_TYPEPROGRAM_DOUBLEWORD 0x08010000
                            0x0000000200000001 HAL_OK;
                  EvRead64 0x08010000 0x0000000200000001]
                 ++ EvProgram FLASH_TYPEPROGRAM_DOUBLEWORD 0x08010008
                              0x0000000400000003 HAL_OK
                 :: [EvRead64 0x08010008 0x0000000400000003; EvLock HAL_OK])
    by (vm_compute; reflexivity).
  split; [ exact Ht | ].
  exact (flash_write_verifies_each_program
           (TestDouble.hal TestDouble.no_faults) TestDouble.header
           0x08010000 [1; 2; 3; 4] 4 TestDouble.fresh _ _ _ _ _ _ Ht).
Defined.
